(** * The Let's Encrypt layer: a model of [reactive/lets_encrypt.py]

    The handlers of the layer are embedded as functions in a state-and-error
    monad over a [World] that holds what the handlers read and write: the
    reactive flags, the stored certificate requests, the running services, the
    certificate directories, root's crontab and the workload status. External
    programs are started through one oracle, [exec], so that every statement
    below holds for every behaviour of the issuance client. *)

From stdpp Require Import base gmap sets list strings pretty.

(** ** Python values, exceptions and results *)

Module Py.

(** Exceptions the handlers can meet. [OSError] stands for any failure to
    start a program or to copy a file. *)
Inductive exn : Type :=
| CalledProcessError (returncode : Z) (output : string)
| KeyError (key : string)
| UnboundLocalError (name : string)
| OSError.

Inductive result (A : Type) : Type :=
| Return (a : A)
| Raise (e : exn).
Global Arguments Return {A} a.
Global Arguments Raise {A} e.

(** Truth value of a [str], and of a value that is a [str] or [None]. *)
Definition truthy (s : string) : bool := negb (bool_decide (s = "")).

Definition truthy_opt (o : option string) : bool :=
  match o with
  | Some s => truthy s
  | None => false
  end.

(** ['%s' % x] for a value that is a [str] or [None]. *)
Definition str_of (o : option string) : string :=
  match o with
  | Some s => s
  | None => "None"
  end.

(** [needle in hay] on strings. *)
Fixpoint str_contains (needle hay : string) : bool :=
  String.prefix needle hay ||
  match hay with
  | EmptyString => false
  | String _ rest => str_contains needle rest
  end.

(** A [str] is held as its UTF-8 bytes. [space_width s] is the number of
    bytes of the white space character that [s] begins with, and 0 when it
    begins with none. White space is what [str.isspace] accepts: U+0009 to
    U+000D, U+001C to U+0020, U+0085, U+00A0, U+1680, U+2000 to U+200A,
    U+2028, U+2029, U+202F, U+205F and U+3000. *)
Definition space_width (s : string) : nat :=
  match s with
  | EmptyString => 0
  | String a rest =>
      let c := Ascii.N_of_ascii a in
      if ((9 <=? c) && (c <=? 13) || (28 <=? c) && (c <=? 32))%N then 1
      else
        match rest with
        | EmptyString => 0
        | String a1 rest1 =>
            let c1 := Ascii.N_of_ascii a1 in
            if ((c =? 194) && ((c1 =? 133) || (c1 =? 160)))%N then 2
            else
              match rest1 with
              | EmptyString => 0
              | String a2 _ =>
                  let c2 := Ascii.N_of_ascii a2 in
                  if ((c =? 225) && (c1 =? 154) && (c2 =? 128)
                      || (c =? 226) && (c1 =? 128)
                         && ((128 <=? c2) && (c2 <=? 138)
                             || (c2 =? 168) || (c2 =? 169) || (c2 =? 175))
                      || (c =? 226) && (c1 =? 129) && (c2 =? 159)
                      || (c =? 227) && (c1 =? 128) && (c2 =? 128))%N
                  then 3
                  else 0
              end
        end
  end.

(** [s.lstrip()]; [skip] counts the bytes still to drop of a white space
    character already recognised. *)
Fixpoint lstrip_from (skip : nat) (s : string) : string :=
  match s with
  | EmptyString => EmptyString
  | String _ rest =>
      match skip with
      | S k => lstrip_from k rest
      | O =>
          match space_width s with
          | S k => lstrip_from k rest
          | O => s
          end
      end
  end.

Definition lstrip (s : string) : string := lstrip_from 0 s.

(** Whether [s] holds white space only (true of the empty string). *)
Fixpoint isspace_from (skip : nat) (s : string) : bool :=
  match s with
  | EmptyString => true
  | String _ rest =>
      match skip with
      | S k => isspace_from k rest
      | O =>
          match space_width s with
          | S k => isspace_from k rest
          | O => false
          end
      end
  end.

(** [s.rstrip()]: cut where only white space follows. *)
Fixpoint rstrip (s : string) : string :=
  match s with
  | EmptyString => EmptyString
  | String a rest =>
      if isspace_from 0 s then EmptyString else String a (rstrip rest)
  end.

(** [s.strip()]. *)
Definition strip (s : string) : string := rstrip (lstrip s).

(** [s.split()]: the maximal runs of characters that are not white space.
    [word] is the run being read, last byte first. *)
Fixpoint split_from (skip : nat) (word : option string) (s : string)
  : list string :=
  match s with
  | EmptyString => option_list (String.rev <$> word)
  | String a rest =>
      match skip with
      | S k => split_from k word rest
      | O =>
          match space_width s with
          | S k => option_list (String.rev <$> word) ++ split_from k None rest
          | O => split_from 0 (Some (String a (default EmptyString word))) rest
          end
      end
  end.

Definition split (s : string) : list string := split_from 0 None s.

(** [s1 >= s2] on strings: lexicographic, by code point. *)
Definition str_ge (s1 s2 : string) : bool := String.leb s2 s1.

End Py.
Export Py.

(** ** The world *)

(** A certificate request is a JSON object; either key may be missing. *)
Record request : Type := {
  req_fqdn : option (list string);
  req_contact_email : option string
}.

Record cron_job : Type := {
  job_command : string;
  job_comment : string;
  job_schedule : string;
  job_enabled : bool
}.

Inductive status_level : Type := blocked | waiting | active.

(** What a handler does to the outside, in the order it does it. *)
Inductive event : Type :=
| EvLog (msg : string)
| EvPrint (msg : string)
| EvStatusSet (level : status_level) (msg : string)
| EvSetState (flag : string)
| EvRemoveState (flag : string)
| EvAptInstall (packages : list string)
| EvOpenPort (port : Z)
| EvServiceStop (name : string)
| EvServiceStart (name : string)
| EvExec (argv : list string)
| EvCronWrite
| EvCopyFile (src dst : string).

Global Instance request_eq_dec : EqDecision request.
Proof. solve_decision. Defined.
Global Instance status_level_eq_dec : EqDecision status_level.
Proof. solve_decision. Defined.
Global Instance event_eq_dec : EqDecision event.
Proof. solve_decision. Defined.

Record World : Type := {
  flags : gset string;                       (* reactive flags that are set *)
  kv_requests : option (list request);       (* unitdata 'certificate.requests' *)
  running : gset string;                     (* services that are running *)
  dirs : gset string;                        (* paths p with os.path.isdir(p) *)
  crontab : list cron_job;                   (* root's crontab *)
  status : option (status_level * string);   (* last status_set *)
  trace : list event
}.

Definition with_flags (f : gset string → gset string) (w : World) : World :=
  {| flags := f (flags w); kv_requests := kv_requests w; running := running w;
     dirs := dirs w; crontab := crontab w; status := status w;
     trace := trace w |}.

Definition with_running (f : gset string → gset string) (w : World) : World :=
  {| flags := flags w; kv_requests := kv_requests w; running := f (running w);
     dirs := dirs w; crontab := crontab w; status := status w;
     trace := trace w |}.

Definition with_dirs (d : gset string) (w : World) : World :=
  {| flags := flags w; kv_requests := kv_requests w; running := running w;
     dirs := d; crontab := crontab w; status := status w; trace := trace w |}.

Definition with_crontab (f : list cron_job → list cron_job) (w : World) : World :=
  {| flags := flags w; kv_requests := kv_requests w; running := running w;
     dirs := dirs w; crontab := f (crontab w); status := status w;
     trace := trace w |}.

Definition with_status (s : status_level * string) (w : World) : World :=
  {| flags := flags w; kv_requests := kv_requests w; running := running w;
     dirs := dirs w; crontab := crontab w; status := Some s;
     trace := trace w |}.

Definition with_event (e : event) (w : World) : World :=
  {| flags := flags w; kv_requests := kv_requests w; running := running w;
     dirs := dirs w; crontab := crontab w; status := status w;
     trace := trace w ++ [e] |}.

(** How a started program ends: with an exit code and its captured output, or
    not at all when it could not be started. *)
Inductive proc : Type :=
| Exited (returncode : Z) (output : string)
| NotStarted.

(** The surroundings of a hook run. The first fields are what the handlers
    read without writing; the last three are oracles. [exec argv merged w] is
    the run of program [argv] in world [w], with stderr merged into the
    captured output when [merged]; a program may create or remove
    directories, and leaves everything else in the world alone. *)
Record Env : Type := {
  lsb_DISTRIB_CODENAME : string;
  config_fqdn : option string;
  config_contact_email : option string;
  config_changed_fqdn : bool;
  config_previous_fqdn : option string;
  layer_service_name : option string;
  environ_CHARM_DIR : option string;
  hookenv_charm_dir : string;
  exec : list string → bool → World → proc * gset string;
  random_draw : World → Z;
  copyfile_ok : string → string → World → bool
}.

(** ** The monad of handlers *)

Definition M (A : Type) : Type := World → result A * World.

Definition ret {A} (a : A) : M A := λ w, (Return a, w).

Definition raise {A} (e : exn) : M A := λ w, (Raise e, w).

Definition bind {A B} (m : M A) (k : A → M B) : M B :=
  λ w, match m w with
       | (Return a, w') => k a w'
       | (Raise e, w') => (Raise e, w')
       end.

(** [try: m except ...: h], where [h e] is [None] for an exception that the
    clause does not match. *)
Definition try_except {A} (m : M A) (h : exn → option (M A)) : M A :=
  λ w, match m w with
       | (Return a, w') => (Return a, w')
       | (Raise e, w') =>
           match h e with
           | Some k => k w'
           | None => (Raise e, w')
           end
       end.

(** [try: m finally: fin]: [fin] runs on every exit of [m]. *)
Definition try_finally {A} (m : M A) (fin : M unit) : M A :=
  λ w, match m w with
       | (r, w') =>
           match fin w' with
           | (Return _, w'') => (r, w'')
           | (Raise e, w'') => (Raise e, w'')
           end
       end.

Declare Scope py_scope.
Delimit Scope py_scope with py.
Notation "x ← y ; z" := (bind y (λ x, z))
  (at level 20, y at level 100, z at level 200, only parsing) : py_scope.
Notation "y ;; z" := (bind y (λ _, z))
  (at level 100, z at level 200, only parsing, right associativity) : py_scope.
Bind Scope py_scope with M.

(** ** Collaborators: charmhelpers, charms.reactive, subprocess *)

Definition emit (e : event) : M unit := λ w, (Return tt, with_event e w).

Definition log (msg : string) : M unit := emit (EvLog msg).

Definition print (msg : string) : M unit := emit (EvPrint msg).

Definition status_set (level : status_level) (msg : string) : M unit :=
  λ w, (Return tt, with_event (EvStatusSet level msg) (with_status (level, msg) w)).

Definition set_state (flag : string) : M unit :=
  λ w, (Return tt, with_event (EvSetState flag) (with_flags (λ fs, fs ∪ {[flag]}) w)).

Definition remove_state (flag : string) : M unit :=
  λ w, (Return tt, with_event (EvRemoveState flag) (with_flags (λ fs, fs ∖ {[flag]}) w)).

Definition open_port (port : Z) : M unit := emit (EvOpenPort port).

Definition apt_install (packages : list string) : M unit :=
  emit (EvAptInstall packages).

Definition service_running (name : string) : M bool :=
  λ w, (Return (bool_decide (name ∈ running w)), w).

Definition service_stop (name : string) : M unit :=
  λ w, (Return tt, with_event (EvServiceStop name) (with_running (λ rs, rs ∖ {[name]}) w)).

Definition service_start (name : string) : M unit :=
  λ w, (Return tt, with_event (EvServiceStart name) (with_running (λ rs, rs ∪ {[name]}) w)).

(** [[os.path.isdir(f) for f in paths]] *)
Definition isdir_each (paths : list string) : M (list bool) :=
  λ w, (Return (map (λ f, bool_decide (f ∈ dirs w)) paths), w).

Definition any (bs : list bool) : bool := existsb id bs.

(** [unitdata.kv().get('certificate.requests', [])]: a fresh copy of what is
    stored. *)
Definition kv_get_requests : M (list request) :=
  λ w, (Return (default [] (kv_requests w)), w).

(** [d[key]] on a request. *)
Definition getitem {A} (key : string) (field : option A) : M A :=
  match field with
  | Some v => ret v
  | None => raise (KeyError key)
  end.

(** Reading a local variable that may not be bound yet. *)
Definition load_local {A} (name : string) (var : option A) : M A :=
  match var with
  | Some v => ret v
  | None => raise (UnboundLocalError name)
  end.

Definition renew_comment : string := "Renew Let's Encrypt [managed by Juju]".

Definition dquote : string := String (Ascii.ascii_of_nat 34) EmptyString.

Definition newline : string := String (Ascii.ascii_of_nat 10) EmptyString.

(** How one turn of the loop of [create_certificates] ends: with the next
    turn, the loop variable [fqdn] carried along (it is read after its own
    loop), or with a [return]. *)
Inductive ctl : Type :=
| Next (fqdn : option string)
| Ret (b : bool).

(** The value of the variable of [for x in xs] after the loop. *)
Definition after_for {A} (var : option A) (xs : list A) : option A :=
  match last xs with
  | Some x => Some x
  | None => var
  end.

Section Handlers.

Variable E : Env.

(** [subprocess.check_output(argv, universal_newlines=True)], with
    [stderr=STDOUT] when [merged]. *)
Definition check_output (argv : list string) (merged : bool) : M string :=
  λ w, match exec E argv merged w with
       | (p, d) =>
           let w' := with_event (EvExec argv) (with_dirs d w) in
           match p with
           | Exited rc out =>
               if bool_decide (rc = 0%Z) then (Return out, w')
               else (Raise (CalledProcessError rc out), w')
           | NotStarted => (Raise OSError, w')
           end
       end.

Definition copyfile (src dst : string) : M unit :=
  λ w, if copyfile_ok E src dst w
       then (Return tt, with_event (EvCopyFile src dst) w)
       else (Raise OSError, w).

(** [random.randint(lo, hi)] *)
Definition randint (lo hi : Z) : M Z :=
  λ w, (Return (lo + random_draw E w `mod` (hi - lo + 1))%Z, w).

(** *** The handlers and their helpers, in the order of the source *)

Definition check_version_and_install : M unit :=
  (let series := lsb_DISTRIB_CODENAME E in
   if negb (str_ge series "xenial") then
     log ("letsencrypt not supported on series >= " +:+ series) ;;
     status_set blocked "Unsupported series < Xenial"
   else
     apt_install ["letsencrypt"] ;;
     open_port 80 ;;
     open_port 443)%py.

Definition config_changed : M unit :=
  if config_changed_fqdn E && truthy_opt (config_previous_fqdn E)
     || truthy_opt (config_fqdn E)
  then remove_state "lets-encrypt.registered"
  else ret tt.

Definition stop_running_web_service : M bool :=
  (let service_name := layer_service_name E in
   if truthy_opt service_name then
     is_up ← service_running (default "" service_name);
     if is_up then
       log ("stopping running service: " +:+ default "" service_name) ;;
       service_stop (default "" service_name) ;;
       ret true
     else ret false
   else ret false)%py.

Definition start_web_service : M unit :=
  (let service_name := layer_service_name E in
   if truthy_opt service_name then
     log ("starting service: " +:+ default "" service_name) ;;
     service_start (default "" service_name)
   else ret tt)%py.

Definition no_renew_needed : M bool :=
  (output ← try_except
              (check_output ["letsencrypt"; "renew"; "--agree-tos"] false)
              (λ error, match error with
                        | CalledProcessError _ out => Some (ret out)
                        | _ => None
                        end);
   ret (str_contains "No renewals were attempted." output))%py.

(** Lines 119-137 of the source: the renewal window. *)
Definition renew_window (fqdn : option string) : M unit :=
  (needs_start ← stop_running_web_service;
   open_port 80 ;;
   open_port 443 ;;
   try_finally
     (try_except
        (output ← check_output ["letsencrypt"; "renew"; "--agree-tos"] true;
         print output ;;
         status_set active ("registered " +:+ str_of fqdn) ;;
         set_state "lets-encrypt.renewed")
        (λ err, match err with
                | CalledProcessError _ out =>
                    Some (status_set blocked
                            ("letsencrypt renewal failed: " +:+ newline +:+ out) ;;
                          print out)
                | _ => None
                end))
     (if needs_start then start_web_service else ret tt))%py.

Definition renew_cert : M unit :=
  (remove_state "lets-encrypt.renew.requested" ;;
   nothing_due ← no_renew_needed;
   if nothing_due then ret tt
   else
     print "Renewing certificate..." ;;
     renew_window (config_fqdn E))%py.

Definition unconfigure_periodic_renew : M unit :=
  λ w, (Return tt,
        with_event EvCronWrite
          (with_crontab
             (filter (λ job, job_comment job ≠ renew_comment)) w)).

(** [cron.new(command=...)] keeps the command without the white space at its
    ends, so the stored job does not have the blank that ends [command]. *)
Definition configure_periodic_renew : M unit :=
  (which ← check_output ["which"; "charms.reactive"] true;
   let charms_reactive := strip which in
   charm_dir ← getitem "CHARM_DIR" (environ_CHARM_DIR E);
   let command :=
     "export CHARM_DIR=" +:+ dquote +:+ charm_dir +:+ dquote +:+ "; "
     +:+ charms_reactive +:+ " set_flag lets-encrypt.renew.requested " in
   minute ← randint 1 59;
   let jobRenew :=
     {| job_command := strip command; job_comment := renew_comment;
        job_schedule := pretty minute +:+ " 6,18 * * *";
        job_enabled := true |} in
   λ w, (Return tt,
         with_event EvCronWrite (with_crontab (λ jobs, jobs ++ [jobRenew]) w)))%py.

Definition create_dhparam : M unit :=
  copyfile (hookenv_charm_dir E +:+ "/files/dhparam.pem")
           "/etc/letsencrypt/dhparam.pem".

Definition opened_ports : M (list string) :=
  (output ← check_output ["opened-ports"] false;
   ret (split output))%py.

Definition le_cmd (names mail_args : list string) : list string :=
  foldl (λ cmd fqdn, cmd ++ ["-d"; fqdn])
        ["letsencrypt"; "certonly"; "--standalone"; "--agree-tos";
         "--non-interactive"] names
  ++ mail_args.

Definition mail_args_of (contact_email : string) : list string :=
  if truthy contact_email then ["--email"; contact_email]
  else ["--register-unsafely-without-email"].

(** Lines 211-241 of the source: the issuance window of one request. [fqdn]
    is the loop variable as the first [for] left it and [names] is
    [cert_request['fqdn']]. *)
Definition issue_window (fqdn : option string) (names : list string)
    (cert_request : request) : M ctl :=
  (needs_start ← stop_running_web_service;
   contact_email ← getitem "contact-email" (req_contact_email cert_request);
   let mail_args := mail_args_of contact_email in
   try_finally
     (try_except
        (output ← check_output (le_cmd names mail_args) true;
         print output ;;
         name ← load_local "fqdn" fqdn;
         status_set active ("registered " +:+ name) ;;
         ret (Next fqdn))
        (λ err, match err with
                | CalledProcessError _ out =>
                    Some (status_set blocked
                            ("letsencrypt registration failed: " +:+ newline
                             +:+ out) ;;
                          print out ;;
                          ret (Ret false))
                | _ => None
                end))
     (if needs_start then start_web_service else ret tt))%py.

Definition fqdnpaths_of (names : list string) : list string :=
  map (λ fqdn, "/etc/letsencrypt/live/" +:+ fqdn) names.

(** One turn of the loop of [create_certificates]. *)
Definition create_certificates_body (fqdn : option string)
    (cert_request : request) : M ctl :=
  (names ← getitem "fqdn" (req_fqdn cert_request);
   let fqdnpaths := fqdnpaths_of names in
   let fqdn := after_for fqdn names in
   found ← isdir_each fqdnpaths;
   if any found then ret (Next fqdn)
   else issue_window fqdn names cert_request)%py.

Fixpoint create_certificates_loop (fqdn : option string)
    (requests : list request) : M bool :=
  match requests with
  | [] => ret true
  | cert_request :: rest =>
      (c ← create_certificates_body fqdn cert_request;
       match c with
       | Next fqdn' => create_certificates_loop fqdn' rest
       | Ret b => ret b
       end)%py
  end.

Definition create_certificates (requests : list request) : M bool :=
  create_certificates_loop None requests.

(** The batch [register_server] hands to [create_certificates]: the stored
    requests, then the one made from the configuration. *)
Definition register_requests (stored : list request) : list request :=
  if truthy_opt (config_fqdn E)
  then stored ++ [{| req_fqdn := Some [default "" (config_fqdn E)];
                     req_contact_email :=
                       Some (default "" (config_contact_email E)) |}]
  else stored.

Definition register_server : M unit :=
  (stored ← kv_get_requests;
   if bool_decide (stored = []) && negb (truthy_opt (config_fqdn E))
   then ret tt
   else
     let requests := register_requests stored in
     ports ← opened_ports;
     if negb (bool_decide ("80/tcp" ∈ ports) || bool_decide ("443/tcp" ∈ ports))
     then status_set waiting
            "Waiting for ports to open (will happen in next hook)"
     else
       ok ← create_certificates requests;
       if ok then
         unconfigure_periodic_renew ;;
         configure_periodic_renew ;;
         create_dhparam ;;
         set_state "lets-encrypt.registered"
       else ret tt)%py.

(** *** Dispatch: the decorators of the handlers *)

Inductive handler : Type :=
| CheckVersionAndInstall
| ConfigChanged
| RegisterServer
| RenewCert.

Definition is_set (flag : string) (w : World) : bool :=
  bool_decide (flag ∈ flags w).

Definition guard (h : handler) (w : World) : bool :=
  match h with
  | CheckVersionAndInstall => negb (is_set "apt.installed.letsencrypt" w)
  | ConfigChanged => is_set "config.changed.fqdn" w
  | RegisterServer =>
      is_set "apt.installed.letsencrypt" w
      && (is_set "lets-encrypt.certificate-requested" w
          || is_set "config.set.fqdn" w)
      && negb (is_set "lets-encrypt.registered" w)
      && negb (is_set "lets-encrypt.disable" w)
  | RenewCert =>
      is_set "apt.installed.letsencrypt" w
      && is_set "lets-encrypt.registered" w
      && is_set "lets-encrypt.renew.requested" w
      && negb (is_set "lets-encrypt.disable" w
               || is_set "lets-encrypt.renew.disable" w)
  end.

Definition body (h : handler) : M unit :=
  match h with
  | CheckVersionAndInstall => check_version_and_install
  | ConfigChanged => config_changed
  | RegisterServer => register_server
  | RenewCert => renew_cert
  end.

(** A handler runs when its decorators hold, and is passed over otherwise. *)
Definition dispatch (h : handler) : M unit :=
  λ w, if guard h w then body h w else (Return tt, w).

End Handlers.

(** ** Vocabulary of the statements *)

(** The programs started, the services started and the services stopped
    along a trace, in order. *)
Definition execs (evs : list event) : list (list string) :=
  omap (λ e, match e with EvExec argv => Some argv | _ => None end) evs.

Definition started (evs : list event) : list string :=
  omap (λ e, match e with EvServiceStart n => Some n | _ => None end) evs.

Definition stopped (evs : list event) : list string :=
  omap (λ e, match e with EvServiceStop n => Some n | _ => None end) evs.

(** The command line of the renewal client. *)
Definition renew_argv : list string := ["letsencrypt"; "renew"; "--agree-tos"].

(** The web service is configured and running: the test of
    [stop_running_web_service]. *)
Definition service_up (E : Env) (w : World) : bool :=
  truthy_opt (layer_service_name E)
  && bool_decide (default "" (layer_service_name E) ∈ running w).

(** One of the certificate directories of [names] exists: the test of
    [create_certificates] for passing a request over. *)
Definition satisfied (w : World) (names : list string) : bool :=
  any (map (λ f, bool_decide (f ∈ dirs w)) (fqdnpaths_of names)).

(** The two windows during which the client holds the ports. *)
Inductive window : Type :=
| RenewalWindow (fqdn : option string)
| IssuanceWindow (fqdn : option string) (names : list string)
    (cert_request : request).

Definition run_window (E : Env) (win : window) (w : World) : World :=
  match win with
  | RenewalWindow fqdn => (renew_window E fqdn w).2
  | IssuanceWindow fqdn names cert_request =>
      (issue_window E fqdn names cert_request w).2
  end.

(** The window gets as far as starting the client. *)
Definition reaches_client (win : window) : Prop :=
  match win with
  | RenewalWindow _ => True
  | IssuanceWindow _ _ cert_request =>
      is_Some (req_contact_email cert_request)
  end.

(** A batch all of whose requests are passed over as already satisfied or
    newly issued by a run of the client that exits with 0. The relation
    follows the loop variable and the world from request to request. An
    issued request has a name to report in the status: its own last name or,
    when its list of names is empty, the last name of an earlier request. *)
Inductive batch_ok (E : Env) :
    option string → list request → World → option string → World → Prop :=
| batch_ok_nil fqdn w : batch_ok E fqdn [] w fqdn w
| batch_ok_skip fqdn r rest w names fqdn' w' :
    req_fqdn r = Some names →
    satisfied w names = true →
    batch_ok E (after_for fqdn names) rest w fqdn' w' →
    batch_ok E fqdn (r :: rest) w fqdn' w'
| batch_ok_issue fqdn r rest w names contact_email name out fqdn' w' :
    req_fqdn r = Some names →
    satisfied w names = false →
    req_contact_email r = Some contact_email →
    after_for fqdn names = Some name →
    (exec E (le_cmd names (mail_args_of contact_email)) true
       (stop_running_web_service E w).2).1 = Exited 0 out →
    batch_ok E (after_for fqdn names) rest
      (create_certificates_body E fqdn r w).2 fqdn' w' →
    batch_ok E fqdn (r :: rest) w fqdn' w'.

(** The jobs of a crontab that carry the comment of this layer. *)
Definition tagged (jobs : list cron_job) : list cron_job :=
  filter (λ job, job_comment job = renew_comment) jobs.

(** [wp m Q w]: the run of [m] from [w] ends in a result and a world that
    satisfy [Q]. *)
Definition wp {A} (m : M A) (Q : result A → World → Prop) (w : World) : Prop :=
  Q (m w).1 (m w).2.

(** ** Sample surroundings *)

Module Sample.

(** The names that follow a [-d] in a command line. *)
Fixpoint names_after_d (take : bool) (argv : list string) : list string :=
  match argv with
  | [] => []
  | a :: rest =>
      if take then a :: names_after_d false rest
      else names_after_d (bool_decide (a = "-d")) rest
  end.

(** A client that issues every name but [bad.example.com], and whose renewal
    has something to do: it fails while probing and succeeds in the
    window. *)
Definition run (argv : list string) (merged : bool) (w : World)
    : proc * gset string :=
  if bool_decide (argv = ["opened-ports"]) then
    (Exited 0 ("80/tcp" +:+ newline +:+ "443/tcp" +:+ newline), dirs w)
  else if bool_decide (argv = ["which"; "charms.reactive"]) then
    (Exited 0 ("/usr/bin/charms.reactive" +:+ newline), dirs w)
  else if bool_decide ("certonly" ∈ argv) then
    if bool_decide ("bad.example.com" ∈ argv)
    then (Exited 1 "Failed authorization procedure.", dirs w)
    else (Exited 0 "Congratulations!",
          dirs w ∪ list_to_set (fqdnpaths_of (names_after_d false argv)))
  else if bool_decide ("renew" ∈ argv) then
    if merged then (Exited 0 "Congratulations, all renewals succeeded.", dirs w)
    else (Exited 1 "Problem binding to port 443", dirs w)
  else (NotStarted, dirs w).

Definition env (series : string) (fqdn previous : option string)
    (changed : bool) (service : option string) : Env :=
  {| lsb_DISTRIB_CODENAME := series;
     config_fqdn := fqdn;
     config_contact_email := Some "";
     config_changed_fqdn := changed;
     config_previous_fqdn := previous;
     layer_service_name := service;
     environ_CHARM_DIR := Some "/var/lib/juju/agents/unit-web-0/charm";
     hookenv_charm_dir := "/var/lib/juju/agents/unit-web-0/charm";
     exec := run;
     random_draw := λ _, 41%Z;
     copyfile_ok := λ _ _ _, true |}.

(** A xenial host with nginx in front and no [fqdn] configured. *)
Definition host : Env := env "xenial" None None false (Some "nginx").

Definition world (fs : list string) (stored : option (list request))
    (up ds : list string) (jobs : list cron_job) : World :=
  {| flags := list_to_set fs; kv_requests := stored;
     running := list_to_set up; dirs := list_to_set ds; crontab := jobs;
     status := None; trace := [] |}.

Definition good : request :=
  {| req_fqdn := Some ["a.example.com"]; req_contact_email := Some "" |}.

Definition bad : request :=
  {| req_fqdn := Some ["bad.example.com"];
     req_contact_email := Some "ops@example.com" |}.

Definition other : request :=
  {| req_fqdn := Some ["c.example.com"]; req_contact_email := Some "" |}.

Definition no_email : request :=
  {| req_fqdn := Some ["a.example.com"]; req_contact_email := None |}.

(** Installed, a certificate requested, nginx running, nothing issued. *)
Definition requested (stored : list request) : World :=
  world ["apt.installed.letsencrypt"; "lets-encrypt.certificate-requested"]
        (Some stored) ["nginx"] [] [].

End Sample.

(** The order of a window, read off the trace from [w] to [w']: the client is
    started once; before it the web service is stopped if it was running and
    nothing is started; after it nothing is stopped and the service is
    started if it had been running. The running services end as they were. *)
Definition window_order (E : Env) (w w' : World) : Prop :=
  running w' = running w ∧
  ∃ pre argv post,
    trace w' = trace w ++ pre ++ EvExec argv :: post ∧
    execs pre = [] ∧ execs post = [] ∧
    stopped pre = (if service_up E w
                   then [default "" (layer_service_name E)] else []) ∧
    started pre = [] ∧
    stopped post = [] ∧
    started post = (if service_up E w
                    then [default "" (layer_service_name E)] else []).

(** A window that ends before the client: from [w] to [w'] no program is
    started and no service is started; the web service is stopped if it was
    running, and is then no longer among the running services. *)
Definition window_cut_short (E : Env) (w w' : World) : Prop :=
  running w' = (if service_up E w
                then running w ∖ {[default "" (layer_service_name E)]}
                else running w) ∧
  ∃ evs,
    trace w' = trace w ++ evs ∧
    execs evs = [] ∧
    started evs = [] ∧
    stopped evs = (if service_up E w
                   then [default "" (layer_service_name E)] else []).

(** Further sample surroundings, for the properties beyond the claims. *)
Module Cases.

(** [Sample.host] with other programs, environment and file copy. *)
Definition host_with (run : list string → bool → World → proc * gset string)
    (charm : option string) (copy : bool) : Env :=
  {| lsb_DISTRIB_CODENAME := "xenial";
     config_fqdn := None;
     config_contact_email := None;
     config_changed_fqdn := false;
     config_previous_fqdn := None;
     layer_service_name := Some "nginx";
     environ_CHARM_DIR := charm;
     hookenv_charm_dir := "/var/lib/juju/agents/unit-web-0/charm";
     exec := run;
     random_draw := λ _, (-1)%Z;
     copyfile_ok := λ _ _ _, copy |}.

(** A renewal client with nothing to renew. *)
Definition quiet : Env :=
  host_with (λ _ _ w, (Exited 0 "No renewals were attempted.", dirs w))
            (Some "/charm") true.

(** No program can be started. *)
Definition bare : Env :=
  host_with (λ _ _ w, (NotStarted, dirs w)) (Some "/charm") true.

(** Juju has not opened the ports: [opened-ports] prints another port. *)
Definition closed : Env :=
  host_with (λ _ _ w, (Exited 0 ("8080/tcp" +:+ newline), dirs w))
            (Some "/charm") true.

(** [Sample.run] without [CHARM_DIR] in the environment. *)
Definition no_charm_dir : Env := host_with Sample.run None true.

(** [Sample.run] on a host where [dhparam.pem] cannot be copied. *)
Definition no_copy : Env := host_with Sample.run (Some "/charm") false.

(** [Sample.run] with all in place. *)
Definition sound : Env := host_with Sample.run (Some "/charm") true.

End Cases.

(** ** Rules for running a handler step by step *)

Lemma wp_bind {A B} (m : M A) (k : A → M B) Q w :
  wp m (λ r w', match r with
                | Return a => wp (k a) Q w'
                | Raise e => Q (Raise e) w'
                end) w →
  wp (bind m k) Q w.
Proof. unfold wp, bind. by destruct (m w) as [[a|e] w']. Qed.

Lemma wp_mono {A} (m : M A) (Q Q' : result A → World → Prop) w :
  wp m Q w → (∀ r w', Q r w' → Q' r w') → wp m Q' w.
Proof. unfold wp. auto. Qed.

Lemma wp_val {A} (m : M A) (Q : result A → World → Prop) w r w' :
  m w = (r, w') → Q r w' → wp m Q w.
Proof. unfold wp. by intros ->. Qed.

Lemma wp_fst {A} (m : M A) (P : result A → Prop) w :
  wp m (λ r _, P r) w → P (m w).1.
Proof. done. Qed.

Lemma wp_eq {A} (m m' : M A) Q w : m w = m' w → wp m' Q w → wp m Q w.
Proof. unfold wp. by intros ->. Qed.

Lemma wp_try_except {A} (m : M A) h Q w :
  wp m (λ r w', match r with
                | Return a => Q (Return a) w'
                | Raise e => match h e with
                             | Some k => wp k Q w'
                             | None => Q (Raise e) w'
                             end
                end) w →
  wp (try_except m h) Q w.
Proof.
  unfold wp, try_except. destruct (m w) as [[a|e] w']; simpl; [done|].
  by destruct (h e).
Qed.

Lemma wp_try_finally {A} (m : M A) fin Q w :
  wp m (λ r w', wp fin (λ r' w'', match r' with
                                  | Return _ => Q r w''
                                  | Raise e => Q (Raise e) w''
                                  end) w') w →
  wp (try_finally m fin) Q w.
Proof.
  unfold wp, try_finally. destruct (m w) as [r w']; simpl.
  by destruct (fin w') as [[u|e] w''].
Qed.

(** The three ways [check_output] can end. *)
Lemma wp_check_output E argv merged (Q : result string → World → Prop) w :
  (∀ out d, exec E argv merged w = (Exited 0 out, d) →
     Q (Return out) (with_event (EvExec argv) (with_dirs d w))) →
  (∀ rc out d, rc ≠ 0%Z → exec E argv merged w = (Exited rc out, d) →
     Q (Raise (CalledProcessError rc out))
       (with_event (EvExec argv) (with_dirs d w))) →
  (∀ d, exec E argv merged w = (NotStarted, d) →
     Q (Raise OSError) (with_event (EvExec argv) (with_dirs d w))) →
  wp (check_output E argv merged) Q w.
Proof.
  intros Hok Hnz Hns. unfold wp, check_output.
  destruct (exec E argv merged w) as [[rc out|] d] eqn:He; simpl; [|by eauto].
  case_bool_decide; simplify_eq/=; eauto.
Qed.

Lemma wp_call {A} (m : M A) (Q : result A → World → Prop) w :
  (∀ r w', m w = (r, w') → Q r w') → wp m Q w.
Proof. intros H. unfold wp. destruct (m w) as [r w'] eqn:Hm. by apply H. Qed.

Lemma wp_copyfile E src dst (Q : result unit → World → Prop) w :
  (copyfile_ok E src dst w = true →
   Q (Return tt) (with_event (EvCopyFile src dst) w)) →
  (copyfile_ok E src dst w = false → Q (Raise OSError) w) →
  wp (copyfile E src dst) Q w.
Proof.
  intros Hok Hno. unfold wp, copyfile.
  destruct (copyfile_ok E src dst w); cbn [fst snd]; auto.
Qed.

(** [stop_running_web_service] in one equation. *)
Lemma stop_cases E w :
  stop_running_web_service E w =
  (Return (service_up E w),
   if service_up E w
   then with_event (EvServiceStop (default "" (layer_service_name E)))
          (with_running (λ rs, rs ∖ {[default "" (layer_service_name E)]})
             (with_event
                (EvLog ("stopping running service: "
                        +:+ default "" (layer_service_name E))) w))
   else w).
Proof.
  unfold stop_running_web_service, service_up, bind, service_running, log,
    emit, service_stop, ret.
  destruct (truthy_opt (layer_service_name E)); [|done].
  by destruct (bool_decide _).
Qed.

(** Projections of a world built with the [with_] functions. *)
Ltac wsimpl :=
  cbn [flags kv_requests running dirs crontab status trace with_flags
       with_running with_dirs with_crontab with_status with_event fst snd] in *.

(** One step of a handler: the rule of the construct at its head, a case
    split on a test or on a key that may be missing, or the evaluation of a
    collaborator that cannot fail. *)
Ltac wp_step :=
  lazymatch goal with
  | |- wp (bind _ _) _ _ => apply wp_bind
  | |- wp (try_except _ _) _ _ => apply wp_try_except
  | |- wp (try_finally _ _) _ _ => apply wp_try_finally
  | |- wp (check_output _ _ _) _ _ =>
      let rc := fresh "rc" in let out := fresh "out" in
      let d := fresh "d" in let Hrc := fresh "Hrc" in
      let He := fresh "Hexec" in
      apply wp_check_output; [intros out d He|intros rc out d Hrc He|intros d He]
  | |- wp (stop_running_web_service _) _ _ =>
      eapply wp_val; [apply stop_cases|]
  | |- wp (if ?b then _ else _) _ _ => destruct b eqn:?
  | |- wp (getitem _ (Some _)) _ _ => eapply wp_val; [reflexivity|]
  | |- wp (getitem _ None) _ _ => eapply wp_val; [reflexivity|]
  | |- wp (getitem _ ?o) _ _ => destruct o eqn:?
  | |- wp (load_local _ (Some _)) _ _ => eapply wp_val; [reflexivity|]
  | |- wp (load_local _ None) _ _ => eapply wp_val; [reflexivity|]
  | |- wp (load_local _ ?o) _ _ => destruct o eqn:?
  | |- wp _ _ _ => eapply wp_val; [reflexivity|]
  end; cbv beta iota.

Ltac wp_run := repeat wp_step; wsimpl.

(** Rewrites the trace of the goal into [trace w ++ [e1; e2; ...]]. *)
Ltac flat_trace := rewrite <- ?app_assoc; cbn [app].

(** Case analysis on the test of [stop_running_web_service]. *)
Ltac service_cases :=
  unfold service_up in *;
  repeat match goal with
         | H : truthy_opt _ = _ |- _ => rewrite H in *; clear H
         | H : bool_decide _ = true |- _ => apply bool_decide_eq_true in H
         | H : bool_decide _ = false |- _ => apply bool_decide_eq_false in H
         end;
  cbn [andb] in *.

(** Closes the goals of [register_server_effects] in which nothing changed. *)
Ltac unchanged :=
  cbv beta iota; wsimpl;
  split; [congruence|left; split; [congruence|left; congruence]].

Lemma execs_app evs1 evs2 : execs (evs1 ++ evs2) = execs evs1 ++ execs evs2.
Proof. apply omap_app. Qed.

Lemma started_app evs1 evs2 : started (evs1 ++ evs2) = started evs1 ++ started evs2.
Proof. apply omap_app. Qed.

Lemma any_satisfied w names :
  satisfied w names = true ↔
  ∃ fqdn, fqdn ∈ names ∧ "/etc/letsencrypt/live/" +:+ fqdn ∈ dirs w.
Proof.
  unfold satisfied, any, fqdnpaths_of. rewrite existsb_exists. split.
  - intros (b & Hin & Hb). unfold id in Hb. subst b.
    apply list_elem_of_In in Hin.
    apply list_elem_of_fmap in Hin as (p & Hp & Hin).
    apply list_elem_of_fmap in Hin as (f & -> & Hf).
    symmetry in Hp. apply bool_decide_eq_true in Hp. eauto.
  - intros (f & Hf & Hd). exists true. split; [|done].
    apply list_elem_of_In, list_elem_of_fmap.
    exists ("/etc/letsencrypt/live/" +:+ f). split.
    + symmetry. by apply bool_decide_eq_true.
    + apply list_elem_of_fmap. eauto.
Qed.

(** [needle in hay] holds exactly when [needle] occurs in [hay]. *)
Lemma prefix_spec needle hay :
  String.prefix needle hay = true ↔ ∃ post, hay = needle +:+ post.
Proof.
  revert hay. induction needle as [|a needle IH]; intros hay.
  - destruct hay; (split; [intros _; by eexists|done]).
  - destruct hay as [|b hay]; cbn [String.prefix].
    + split; [done|]. by intros [post Hpost].
    + destruct (Ascii.ascii_dec a b) as [->|Hne].
      * rewrite IH. split; intros [post Hpost]; exists post.
        -- by rewrite Hpost.
        -- by injection Hpost.
      * split; [done|]. intros [post Hpost]. by injection Hpost.
Qed.

Lemma str_contains_spec needle hay :
  str_contains needle hay = true ↔ ∃ pre post, hay = pre +:+ needle +:+ post.
Proof.
  induction hay as [|c hay IH]; cbn [str_contains]; rewrite orb_true_iff.
  - rewrite prefix_spec. split.
    + intros [[post Hpost]|?]; [|done]. by exists "", post.
    + intros (pre & post & Hpre). left. exists post.
      by destruct pre.
  - rewrite prefix_spec, IH. split.
    + intros [[post Hpost]|(pre & post & Hpre)].
      * by exists "", post.
      * exists (String c pre), post. by rewrite Hpre.
    + intros (pre & post & Hpre). destruct pre as [|c' pre].
      * left. by exists post.
      * right. exists pre, post. by injection Hpre.
Qed.

(** ** The service around a window *)

Lemma renew_window_service E fqdn w :
  wp (renew_window E fqdn)
     (λ _ w', (service_up E w = true → service_up E w' = true) ∧
              ∃ evs, trace w' = trace w ++ evs ∧
                     started evs = if service_up E w
                                   then [default "" (layer_service_name E)]
                                   else [])
     w.
Proof.
  unfold renew_window, stop_running_web_service, start_web_service.
  wp_run; flat_trace; (split; [|eexists; split; [reflexivity|]]);
    service_cases; rewrite ?bool_decide_eq_true; try done;
    try (rewrite bool_decide_true by done; done);
    try (rewrite bool_decide_false by done; done);
    try set_solver.
Qed.

Lemma issue_window_service E fqdn names r contact_email w :
  req_contact_email r = Some contact_email →
  wp (issue_window E fqdn names r)
     (λ _ w', (service_up E w = true → service_up E w' = true) ∧
              ∃ evs, trace w' = trace w ++ evs ∧
                     started evs = if service_up E w
                                   then [default "" (layer_service_name E)]
                                   else [])
     w.
Proof.
  intros Hmail.
  unfold issue_window, stop_running_web_service, start_web_service.
  rewrite Hmail.
  wp_run; flat_trace; simplify_eq;
    (split; [|eexists; split; [reflexivity|]]);
    service_cases; rewrite ?bool_decide_eq_true; try done;
    try (rewrite bool_decide_true by done; done);
    try (rewrite bool_decide_false by done; done);
    try set_solver.
Qed.

(** A window that gets as far as starting the client, be it the renewal
    window of [renew_cert] or the issuance window of one request in
    [create_certificates], and whatever the client does (exit 0, exit
    non-zero, no start at all; [E] is arbitrary): a web service that was
    running before the window is running after it, and the service is
    started again exactly once if it was running before and not at all
    otherwise. *)
Lemma reached_window_restores_service (E : Env) (win : window) (w : World) :
  reaches_client win →
  let w' := run_window E win w in
  (service_up E w = true → service_up E w' = true) ∧
  ∃ evs, trace w' = trace w ++ evs ∧
         started evs = if service_up E w
                       then [default "" (layer_service_name E)]
                       else [].
Proof.
  destruct win as [fqdn|fqdn names r]; intros Hreach.
  - exact (renew_window_service E fqdn w).
  - destruct Hreach as [contact_email Hmail].
    exact (issue_window_service E fqdn names r contact_email w Hmail).
Qed.

(** A request without ['contact-email'] that has to be attempted: the
    service is stopped first, and the [KeyError] leaves it stopped. *)
Lemma issue_window_no_email E fqdn names r w :
  req_contact_email r = None →
  issue_window E fqdn names r w =
  (Raise (KeyError "contact-email"), (stop_running_web_service E w).2).
Proof.
  intros Hmail. unfold issue_window, bind at 1. rewrite stop_cases.
  unfold bind, getitem, raise. by rewrite Hmail.
Qed.

(** The same window in the vocabulary of the statements: the service is
    stopped at line 211, the [KeyError] of line 214 is raised before the
    [try] of line 219 is entered, and so the [finally] that would start the
    service again is never reached. *)
Lemma issue_window_cut_short E fqdn names r w :
  req_contact_email r = None →
  (issue_window E fqdn names r w).1 = Raise (KeyError "contact-email") ∧
  window_cut_short E w (issue_window E fqdn names r w).2.
Proof.
  intros Hmail. rewrite (issue_window_no_email E fqdn names r w Hmail).
  rewrite stop_cases. cbn [fst snd].
  split; [done|]. unfold window_cut_short.
  destruct (service_up E w); wsimpl.
  - split; [done|]. eexists. rewrite <- app_assoc. by split.
  - split; [done|]. exists []. by rewrite app_nil_r.
Qed.

(** C1 does not hold of the issuance window. When the request has no
    ['contact-email'] and the web service was running, the window ends with
    [KeyError] after the service has been stopped and before the [try] whose
    [finally] starts it again: the service is left stopped, the client has
    not run, and nothing is started. The renewal window of [renew_cert] has
    no statement that can fail between the stop and its [try]. *)
Theorem C1_service_left_stopped (E : Env) (fqdn : option string)
    (names : list string) (r : request) (w : World) :
  req_contact_email r = None →
  service_up E w = true →
  let res := issue_window E fqdn names r w in
  res.1 = Raise (KeyError "contact-email") ∧
  service_up E res.2 = false ∧
  ∃ evs, trace res.2 = trace w ++ evs ∧
         stopped evs = [default "" (layer_service_name E)] ∧
         started evs = [] ∧
         execs evs = [].
Proof.
  intros Hmail Hup res.
  destruct (issue_window_cut_short E fqdn names r w Hmail)
    as (Hres & Hrun & evs & Htrace & Hexecs & Hstarted & Hstopped).
  fold res in Hres, Hrun, Htrace. rewrite Hup in Hrun, Hstopped.
  split; [exact Hres|]. split.
  - unfold service_up. rewrite Hrun.
    rewrite bool_decide_false by set_solver. by rewrite andb_false_r.
  - by exists evs.
Qed.

Lemma C1_service_left_stopped_witness :
  let E := Sample.host in
  let w := Sample.requested [Sample.no_email] in
  let res := issue_window E (Some "a.example.com") ["a.example.com"]
               Sample.no_email w in
  service_up E w = true ∧
  res.1 = Raise (KeyError "contact-email") ∧
  service_up E res.2 = false ∧
  (∃ evs, trace res.2 = trace w ++ evs ∧ stopped evs = ["nginx"] ∧
          started evs = [] ∧ execs evs = []) ∧
  (dispatch E RegisterServer w).1 = Raise (KeyError "contact-email") ∧
  service_up E (dispatch E RegisterServer w).2 = false ∧
  started (trace (dispatch E RegisterServer w).2) = [].
Proof.
  intros E w res.
  destruct (C1_service_left_stopped E (Some "a.example.com")
              ["a.example.com"] Sample.no_email w eq_refl eq_refl)
    as (Hres & Hdown & Hev).
  split; [reflexivity|]. split; [exact Hres|]. split; [exact Hdown|].
  split; [exact Hev|]. by vm_compute.
Defined.

(** ** Renewal *)

(** What [renew_cert] does to the flags and how its trace begins, on every
    way out. *)
Lemma renew_cert_effects E w :
  wp (renew_cert E)
     (λ _ w',
        ("lets-encrypt.renew.requested" ∉ flags w') ∧
        (∀ flag, flag ≠ "lets-encrypt.renewed" →
                 (flag ∈ flags w' ↔
                  flag ∈ flags w ∧ flag ≠ "lets-encrypt.renew.requested")) ∧
        ∃ evs, trace w' =
               trace w ++ EvRemoveState "lets-encrypt.renew.requested"
                       :: EvExec renew_argv :: evs)
     w.
Proof.
  unfold renew_cert, renew_window, no_renew_needed, stop_running_web_service,
    start_web_service, renew_argv.
  wp_run; flat_trace; (split; [set_solver|split; [set_solver|eauto]]).
Qed.

Lemma guard_renew_needs_request w :
  "lets-encrypt.renew.requested" ∉ flags w → guard RenewCert w = false.
Proof.
  intros Hreq. unfold guard.
  assert (is_set "lets-encrypt.renew.requested" w = false) as ->
    by by apply bool_decide_eq_false.
  by rewrite andb_false_r.
Qed.

(** C6. [renew_cert] clears the flag [lets-encrypt.renew.requested] as its
    first step: the removal is the first event of the handler and comes before
    the probe of [no_renew_needed] starts the client. On every way out of the
    handler (nothing due, renewal done, renewal failed, an exception) the flag
    is not set afterwards, so the handler is not enabled again and a further
    dispatch does nothing until the flag is set anew. *)
Theorem C6_request_cleared_first (E : Env) (w : World) :
  let w' := (renew_cert E w).2 in
  ("lets-encrypt.renew.requested" ∉ flags w') ∧
  (∃ evs, trace w' =
          trace w ++ EvRemoveState "lets-encrypt.renew.requested"
                  :: EvExec renew_argv :: evs) ∧
  guard RenewCert w' = false ∧
  dispatch E RenewCert w' = (Return tt, w').
Proof.
  intros w'. destruct (renew_cert_effects E w) as (Hreq & _ & Hev).
  fold w' in Hreq, Hev.
  pose proof (guard_renew_needs_request w' Hreq) as Hg.
  repeat split; [done..|]. unfold dispatch. by rewrite Hg.
Qed.

Lemma renew_window_execs E fqdn w :
  wp (renew_window E fqdn)
     (λ _ w', ∃ evs, trace w' = trace w ++ evs ∧ execs evs = [renew_argv]) w.
Proof.
  unfold renew_window, stop_running_web_service, start_web_service, renew_argv.
  wp_run; flat_trace; eexists; (split; [reflexivity|done]).
Qed.

Lemma no_renew_needed_effects E w :
  wp (no_renew_needed E)
     (λ _ w', running w' = running w ∧
              trace w' = trace w ++ [EvExec renew_argv] ∧
              dirs w' = (exec E renew_argv false w).2) w.
Proof.
  unfold no_renew_needed. fold renew_argv.
  wp_run; by rewrite Hexec.
Qed.

(** C9. The probe [no_renew_needed] starts the renewal client itself, with the
    command line of the renewal window and no dry-run option; it stops no
    service and in [renew_cert] it runs before any service is stopped.
    Whatever the exit code of the probe, the probe returns normally, and its
    answer is true exactly when the sentence [No renewals were attempted.]
    occurs in the captured output; what the client did to the certificate
    directories while probing stays done. *)
Theorem C9_probe_runs_the_client (E : Env) (w : World) :
  let res := no_renew_needed E w in
  (∀ rc out d, exec E renew_argv false w = (Exited rc out, d) →
     res = (Return (str_contains "No renewals were attempted." out),
            with_event (EvExec renew_argv) (with_dirs d w)) ∧
     (str_contains "No renewals were attempted." out = true ↔
      ∃ pre post, out = pre +:+ "No renewals were attempted." +:+ post)) ∧
  running res.2 = running w ∧
  trace res.2 = trace w ++ [EvExec renew_argv] ∧
  dirs res.2 = (exec E renew_argv false w).2 ∧
  ("--dry-run" ∉ renew_argv) ∧
  (∀ fqdn w0, ∃ evs, trace (renew_window E fqdn w0).2 = trace w0 ++ evs ∧
                     execs evs = [renew_argv]) ∧
  (∃ evs, trace (renew_cert E w).2 =
          trace w ++ EvRemoveState "lets-encrypt.renew.requested"
                  :: EvExec renew_argv :: evs).
Proof.
  intros res.
  destruct (no_renew_needed_effects E w) as (Hrun & Htrace & Hdirs).
  split; [|split; [done|split; [done|split; [done|split; [|split]]]]].
  - intros rc out d Hexec. split; [|apply str_contains_spec].
    unfold res, no_renew_needed, try_except, bind, check_output, ret.
    fold renew_argv. rewrite Hexec. by case_bool_decide.
  - unfold renew_argv. set_solver.
  - intros fqdn w0. exact (renew_window_execs E fqdn w0).
  - by destruct (renew_cert_effects E w) as (_ & _ & Hev).
Qed.

Lemma C9_probe_runs_the_client_witness :
  let E := Sample.host in
  let w := Sample.requested [] in
  exec E renew_argv false w = (Exited 1 "Problem binding to port 443", dirs w) ∧
  no_renew_needed E w =
    (Return false, with_event (EvExec renew_argv) (with_dirs (dirs w) w)).
Proof.
  intros E w. split; [reflexivity|].
  exact (proj1 (proj1 (C9_probe_runs_the_client E w) 1%Z
                  "Problem binding to port 443" (dirs w) eq_refl)).
Defined.

(** ** Issuance *)

Lemma body_skip E fqdn r w names :
  req_fqdn r = Some names →
  satisfied w names = true →
  create_certificates_body E fqdn r w = (Return (Next (after_for fqdn names)), w).
Proof.
  intros Hnames Hsat.
  unfold create_certificates_body, bind, getitem, isdir_each, ret.
  rewrite Hnames. unfold satisfied in Hsat. by rewrite Hsat.
Qed.

Lemma body_attempt E fqdn r w names :
  req_fqdn r = Some names →
  satisfied w names = false →
  create_certificates_body E fqdn r w =
  issue_window E (after_for fqdn names) names r w.
Proof.
  intros Hnames Hsat.
  unfold create_certificates_body, bind, getitem, isdir_each, ret.
  rewrite Hnames. unfold satisfied in Hsat. by rewrite Hsat.
Qed.

Lemma loop_cons E fqdn r rest w :
  create_certificates_loop E fqdn (r :: rest) w =
  match create_certificates_body E fqdn r w with
  | (Return (Next fqdn'), w') => create_certificates_loop E fqdn' rest w'
  | (Return (Ret b), w') => (Return b, w')
  | (Raise e, w') => (Raise e, w')
  end.
Proof.
  cbn [create_certificates_loop]. unfold bind at 1.
  by destruct (create_certificates_body E fqdn r w) as [[[?|?]|?] ?].
Qed.

Lemma loop_skip E fqdn r rest w names :
  req_fqdn r = Some names →
  satisfied w names = true →
  create_certificates_loop E fqdn (r :: rest) w =
  create_certificates_loop E (after_for fqdn names) rest w.
Proof.
  intros Hnames Hsat. by rewrite loop_cons, (body_skip _ _ _ _ names).
Qed.

(** C5. A request one of whose names already has its certificate directory is
    passed over: the turn of the loop returns at once and leaves the world as
    it was (no program started, no service stopped or started, the status and
    the directories untouched), and the loop goes on with the rest of the
    batch from that same world. *)
Theorem C5_satisfied_request_skipped (E : Env) (fqdn : option string)
    (r : request) (rest : list request) (w : World) (names : list string) :
  req_fqdn r = Some names →
  (∃ name, name ∈ names ∧ "/etc/letsencrypt/live/" +:+ name ∈ dirs w) →
  create_certificates_body E fqdn r w = (Return (Next (after_for fqdn names)), w) ∧
  create_certificates_loop E fqdn (r :: rest) w =
    create_certificates_loop E (after_for fqdn names) rest w ∧
  create_certificates E [r] w = (Return true, w).
Proof.
  intros Hnames Hsat%any_satisfied. split; [|split].
  - by apply body_skip.
  - by apply loop_skip.
  - unfold create_certificates. by rewrite (loop_skip _ _ _ _ _ names).
Qed.

Lemma C5_satisfied_request_skipped_witness :
  let w := Sample.world [] None ["nginx"]
             ["/etc/letsencrypt/live/a.example.com"] [] in
  create_certificates Sample.host [Sample.good] w = (Return true, w).
Proof.
  intros w.
  refine (proj2 (proj2 (C5_satisfied_request_skipped Sample.host None
            Sample.good [] w ["a.example.com"] eq_refl _))).
  exists "a.example.com". split; [set_solver|]. vm_compute. done.
Defined.

(** [register_server] catches nothing that [create_certificates] raises. *)
Lemma register_server_propagates E w ports w1 e w2 :
  bool_decide (default [] (kv_requests w) = [])
    && negb (truthy_opt (config_fqdn E)) = false →
  opened_ports E w = (Return ports, w1) →
  "80/tcp" ∈ ports ∨ "443/tcp" ∈ ports →
  create_certificates E (register_requests E (default [] (kv_requests w))) w1
    = (Raise e, w2) →
  register_server E w = (Raise e, w2).
Proof.
  intros Hsome Hports Hopen Hraise.
  unfold register_server, bind at 1, kv_get_requests. rewrite Hsome.
  unfold bind at 1. rewrite Hports.
  assert (negb (bool_decide ("80/tcp" ∈ ports) || bool_decide ("443/tcp" ∈ ports))
          = false) as ->.
  { apply negb_false_iff, orb_true_iff.
    destruct Hopen; [left|right]; by apply bool_decide_eq_true. }
  unfold bind at 1. by rewrite Hraise.
Qed.

(** Only [CalledProcessError] is caught in the window: a client that cannot
    be started makes the attempt raise. *)
Lemma body_not_started E fqdn r w names contact_email d :
  req_fqdn r = Some names →
  satisfied w names = false →
  req_contact_email r = Some contact_email →
  exec E (le_cmd names (mail_args_of contact_email)) true
    (stop_running_web_service E w).2 = (NotStarted, d) →
  (create_certificates_body E fqdn r w).1 = Raise OSError.
Proof.
  intros Hnames Hsat Hmail Hexit.
  apply (wp_fst _ (λ r', r' = Raise OSError)).
  eapply wp_eq; [by apply (body_attempt _ _ _ _ names)|].
  rewrite stop_cases in Hexit. cbn [snd] in Hexit.
  unfold issue_window, start_web_service. rewrite Hmail.
  wp_run; try done; rewrite Hexec in Hexit; by simplify_eq/=.
Qed.

(** C10, as the code has it. A request without ['fqdn'] raises [KeyError] as
    soon as the loop reaches it, and the world is as it was. A request without
    ['contact-email'] raises [KeyError] only if the loop reaches it and none
    of its certificate directories exists; the web service has been stopped
    by then and is not started again. A request one of whose directories
    exists is passed over before ['contact-email'] is read. What
    [create_certificates] raises, [register_server] raises; and of what the
    client invocation raises only [CalledProcessError] is caught: a client
    that cannot be started makes the loop raise as well. *)
Theorem C10_missing_keys (E : Env) (fqdn : option string) (r : request)
    (rest : list request) (w : World) :
  (req_fqdn r = None →
   create_certificates_loop E fqdn (r :: rest) w = (Raise (KeyError "fqdn"), w)) ∧
  (∀ names, req_fqdn r = Some names → satisfied w names = false →
            req_contact_email r = None →
            create_certificates_loop E fqdn (r :: rest) w =
            (Raise (KeyError "contact-email"), (stop_running_web_service E w).2)) ∧
  (∀ names, req_fqdn r = Some names → satisfied w names = true →
            create_certificates_loop E fqdn (r :: rest) w =
            create_certificates_loop E (after_for fqdn names) rest w) ∧
  (∀ w0 ports e w2,
     bool_decide (default [] (kv_requests w0) = [])
       && negb (truthy_opt (config_fqdn E)) = false →
     opened_ports E w0 = (Return ports, w) →
     "80/tcp" ∈ ports ∨ "443/tcp" ∈ ports →
     create_certificates E (register_requests E (default [] (kv_requests w0))) w
       = (Raise e, w2) →
     register_server E w0 = (Raise e, w2)) ∧
  (∀ names contact_email d,
     req_fqdn r = Some names → satisfied w names = false →
     req_contact_email r = Some contact_email →
     exec E (le_cmd names (mail_args_of contact_email)) true
       (stop_running_web_service E w).2 = (NotStarted, d) →
     (create_certificates_loop E fqdn (r :: rest) w).1 = Raise OSError).
Proof.
  split; [|split; [|split; [|split]]].
  - intros Hnames. rewrite loop_cons.
    unfold create_certificates_body, bind, getitem, raise. by rewrite Hnames.
  - intros names Hnames Hsat Hmail.
    by rewrite loop_cons, (body_attempt _ _ _ _ names), issue_window_no_email.
  - intros names Hnames Hsat. by apply loop_skip.
  - intros w0 ports e w2. apply register_server_propagates.
  - intros names contact_email d Hnames Hsat Hmail Hexit. rewrite loop_cons.
    pose proof (body_not_started _ fqdn _ _ _ _ _ Hnames Hsat Hmail Hexit) as Hb.
    destruct (create_certificates_body E fqdn r w) as [rb wb].
    cbn [fst] in Hb. by subst rb.
Qed.

Lemma C10_missing_keys_witness :
  let E := Sample.host in
  let w := Sample.world [] None ["nginx"] [] [] in
  create_certificates E [Sample.no_email] w =
    (Raise (KeyError "contact-email"), (stop_running_web_service E w).2) ∧
  service_up E w = true ∧
  service_up E (stop_running_web_service E w).2 = false.
Proof.
  intros E w. split; [|split; reflexivity].
  exact (proj1 (proj2 (C10_missing_keys E None Sample.no_email [] w))
           ["a.example.com"] eq_refl eq_refl eq_refl).
Defined.

Lemma C10_counterexample :
  let E := Sample.host in
  let w := Sample.world [] None ["nginx"]
             ["/etc/letsencrypt/live/a.example.com"] [] in
  req_contact_email Sample.no_email = None ∧
  create_certificates E [Sample.no_email] w = (Return true, w).
Proof. intros E w. split; [reflexivity|]. vm_compute. reflexivity. Qed.

(** An attempt whose client exits with 0 goes on to the next request. *)
Lemma body_issued E fqdn r w names contact_email name out :
  req_fqdn r = Some names →
  satisfied w names = false →
  req_contact_email r = Some contact_email →
  after_for fqdn names = Some name →
  (exec E (le_cmd names (mail_args_of contact_email)) true
     (stop_running_web_service E w).2).1 = Exited 0 out →
  (create_certificates_body E fqdn r w).1 = Return (Next (after_for fqdn names)).
Proof.
  intros Hnames Hsat Hmail Hname Hexit.
  apply (wp_fst _ (λ r', r' = Return (Next (after_for fqdn names)))).
  eapply wp_eq; [by apply (body_attempt _ _ _ _ names)|].
  rewrite stop_cases in Hexit. cbn [snd] in Hexit.
  unfold issue_window, start_web_service. rewrite Hmail, Hname.
  wp_run; try done; rewrite Hexec in Hexit; by simplify_eq/=.
Qed.

(** An attempt whose client exits with another code returns [False]. *)
Lemma body_failed E fqdn r w names contact_email rc out d :
  req_fqdn r = Some names →
  satisfied w names = false →
  req_contact_email r = Some contact_email →
  exec E (le_cmd names (mail_args_of contact_email)) true
    (stop_running_web_service E w).2 = (Exited rc out, d) →
  rc ≠ 0%Z →
  wp (create_certificates_body E fqdn r)
     (λ r' w', r' = Return (Ret false) ∧
               dirs w' = d ∧
               status w' = Some (blocked, "letsencrypt registration failed: "
                                          +:+ newline +:+ out) ∧
               ∃ evs, trace w' = trace w ++ evs ∧
                      execs evs = [le_cmd names (mail_args_of contact_email)])
     w.
Proof.
  intros Hnames Hsat Hmail Hexit Hrc.
  eapply wp_eq; [by apply (body_attempt _ _ _ _ names)|].
  rewrite stop_cases in Hexit. cbn [snd] in Hexit.
  unfold issue_window, start_web_service. rewrite Hmail.
  wp_run; rewrite Hexec in Hexit; simplify_eq/=;
    flat_trace; (repeat split; try done); eexists; (split; [reflexivity|done]).
Qed.

(** A batch that is all passed over or issued takes the loop to its end. *)
Lemma loop_batch_ok E fqdn pre w fqdn1 w1 post :
  batch_ok E fqdn pre w fqdn1 w1 →
  create_certificates_loop E fqdn (pre ++ post) w =
  create_certificates_loop E fqdn1 post w1.
Proof.
  induction 1 as [fqdn w|fqdn r rest w names fqdn' w' Hnames Hsat _ IH
                 |fqdn r rest w names contact_email name out fqdn' w'
                    Hnames Hsat Hmail Hname Hexit _ IH]; [done|..].
  - cbn [app]. by rewrite (loop_skip _ _ _ _ _ names).
  - cbn [app]. rewrite loop_cons.
    pose proof (body_issued _ _ _ _ _ _ _ _ Hnames Hsat Hmail Hname Hexit) as Hb.
    destruct (create_certificates_body E fqdn r w) as [res w2].
    cbn [fst snd] in *. by subst res.
Qed.

(** If no program ever removes a directory, neither does the loop. *)
Lemma loop_keeps_dirs E :
  (∀ argv merged w0, dirs w0 ⊆ (exec E argv merged w0).2) →
  ∀ requests fqdn w,
    wp (create_certificates_loop E fqdn requests) (λ _ w', dirs w ⊆ dirs w') w.
Proof.
  intros Hkeep requests.
  induction requests as [|r rest IH]; intros fqdn w; [by unfold wp|].
  cbn [create_certificates_loop]. apply wp_bind.
  apply (wp_mono _ (λ _ w', dirs w ⊆ dirs w')).
  - unfold create_certificates_body, issue_window, start_web_service.
    wp_run;
      try match goal with
          | H : exec E ?a ?m ?w0 = _ |- _ =>
              pose proof (Hkeep a m w0) as Hk; rewrite H in Hk
          end;
      try match goal with
          | H : service_up _ _ = _ |- _ => rewrite H in *
          end;
      try destruct (service_up E w); wsimpl; done.
  - intros [[fqdn'|b]|e] w' Hsub; [|done..].
    eapply wp_mono; [apply IH|]. intros ? w'' Hsub'. cbn beta in *.
    set_solver.
Qed.

(** C2. Let the requests before request [r] all be passed over or issued
    ([batch_ok], ending in world [w1]) and let the client exit with a code
    other than 0 on [r]. Then [create_certificates] returns [False]; what
    follows [r] in the batch plays no part (the result is that of the batch
    cut after [r], and after [w1] the client is started once, for [r]); the
    status is blocked with the output of the client; the directories are
    those the failed run left behind, so that every directory present in [w1]
    is still there unless that run removed it itself. More generally, if no
    program ever removes a directory, the function removes none. And a batch
    all of whose requests are passed over or issued makes the function return
    [True]. *)
Theorem C2_batch_stops_at_first_failure (E : Env) :
  (∀ pre r post w fqdn1 w1 names contact_email rc out d,
     batch_ok E None pre w fqdn1 w1 →
     req_fqdn r = Some names →
     satisfied w1 names = false →
     req_contact_email r = Some contact_email →
     exec E (le_cmd names (mail_args_of contact_email)) true
       (stop_running_web_service E w1).2 = (Exited rc out, d) →
     rc ≠ 0%Z →
     let res := create_certificates E (pre ++ r :: post) w in
     res.1 = Return false ∧
     res = create_certificates E (pre ++ [r]) w ∧
     dirs res.2 = d ∧
     status res.2 = Some (blocked, "letsencrypt registration failed: "
                                   +:+ newline +:+ out) ∧
     ∃ evs, trace res.2 = trace w1 ++ evs ∧
            execs evs = [le_cmd names (mail_args_of contact_email)]) ∧
  ((∀ argv merged w0, dirs w0 ⊆ (exec E argv merged w0).2) →
   ∀ requests w, dirs w ⊆ dirs (create_certificates E requests w).2) ∧
  (∀ requests w fqdn' w',
     batch_ok E None requests w fqdn' w' →
     create_certificates E requests w = (Return true, w')).
Proof.
  split; [|split].
  - intros pre r post w fqdn1 w1 names contact_email rc out d
      Hpre Hnames Hsat Hmail Hexit Hrc res.
    pose proof (body_failed E fqdn1 r w1 names contact_email rc out d
                  Hnames Hsat Hmail Hexit Hrc) as Hbody.
    unfold wp in Hbody.
    assert (Hcut : ∀ tail, create_certificates E (pre ++ r :: tail) w =
                           (Return false, (create_certificates_body E fqdn1 r w1).2)).
    { intros tail. unfold create_certificates.
      rewrite (loop_batch_ok _ _ _ _ _ _ _ Hpre), loop_cons.
      destruct (create_certificates_body E fqdn1 r w1) as [rb wb].
      cbn [fst snd] in *. by destruct Hbody as [-> _]. }
    unfold res. rewrite !Hcut. cbn [fst snd].
    destruct Hbody as (_ & Hd & Hs & Hev). done.
  - intros Hkeep requests w. exact (loop_keeps_dirs E Hkeep requests None w).
  - intros requests w fqdn' w' Hok. unfold create_certificates.
    rewrite <- (app_nil_r requests). by rewrite (loop_batch_ok _ _ _ _ _ _ _ Hok).
Qed.

Lemma C2_batch_stops_at_first_failure_witness :
  let E := Sample.host in
  let w := Sample.requested [] in
  let res := create_certificates E [Sample.good; Sample.bad; Sample.other] w in
  res.1 = Return false ∧
  res = create_certificates E [Sample.good; Sample.bad] w ∧
  "/etc/letsencrypt/live/a.example.com" ∈ dirs res.2 ∧
  status res.2 = Some (blocked, "letsencrypt registration failed: "
                                +:+ newline +:+ "Failed authorization procedure.").
Proof.
  intros E w res.
  set (w1 := (create_certificates_body E None Sample.good w).2).
  assert (Hpre : batch_ok E None [Sample.good] w (Some "a.example.com") w1).
  { eapply (batch_ok_issue E None Sample.good [] w ["a.example.com"] ""
              "a.example.com" "Congratulations!");
      [reflexivity..|apply batch_ok_nil]. }
  destruct (proj1 (C2_batch_stops_at_first_failure E)
              [Sample.good] Sample.bad [Sample.other] w (Some "a.example.com")
              w1 ["bad.example.com"] "ops@example.com" 1%Z
              "Failed authorization procedure."
              (dirs (stop_running_web_service E w1).2)
              Hpre eq_refl eq_refl eq_refl)
    as (Hres & Hcut & Hdirs & Hstatus & _).
  - vm_compute. reflexivity.
  - done.
  - split; [exact Hres|]. split; [exact Hcut|]. split; [|exact Hstatus].
    change (dirs res.2) with
      (dirs (create_certificates E ([Sample.good] ++ Sample.bad :: [Sample.other]) w).2).
    rewrite Hdirs. vm_compute. done.
Defined.

(** ** The handlers as transitions *)

(** The loop of [create_certificates] touches neither the flags, nor the
    stored requests, nor the crontab. *)
Lemma loop_frame E requests :
  ∀ fqdn w,
    wp (create_certificates_loop E fqdn requests)
       (λ _ w', flags w' = flags w ∧ kv_requests w' = kv_requests w ∧
                crontab w' = crontab w) w.
Proof.
  induction requests as [|r rest IH]; intros fqdn w; [by unfold wp|].
  cbn [create_certificates_loop]. apply wp_bind.
  apply (wp_mono _ (λ _ w', flags w' = flags w ∧ kv_requests w' = kv_requests w ∧
                            crontab w' = crontab w)).
  - unfold create_certificates_body, issue_window, start_web_service.
    wp_run;
      try match goal with
          | H : service_up _ _ = _ |- _ => rewrite H in *
          end;
      try destruct (service_up E w); wsimpl; done.
  - intros [[fqdn'|b]|e] w' (Hf & Hk & Hc); [|done..].
    eapply wp_mono; [apply IH|]. intros ? w'' (Hf' & Hk' & Hc'). cbn beta in *.
    by rewrite Hf', Hk', Hc'.
Qed.

Lemma tagged_app jobs1 jobs2 : tagged (jobs1 ++ jobs2) = tagged jobs1 ++ tagged jobs2.
Proof. apply filter_app. Qed.

Lemma tagged_removed jobs :
  tagged (filter (λ job, job_comment job ≠ renew_comment) jobs) = [].
Proof.
  unfold tagged. induction jobs as [|job jobs IH]; [done|].
  rewrite (filter_cons (λ job, job_comment job ≠ renew_comment)).
  destruct (decide (job_comment job ≠ renew_comment)) as [Hne|Heq]; [|done].
  rewrite filter_cons. by destruct (decide (job_comment job = renew_comment)).
Qed.

Lemma untagged_removed (jobs : list cron_job) :
  filter (λ job, job_comment job ≠ renew_comment)
    (filter (λ job, job_comment job ≠ renew_comment) jobs) =
  filter (λ job, job_comment job ≠ renew_comment) jobs.
Proof.
  induction jobs as [|job jobs IH]; [done|].
  rewrite (filter_cons _ job).
  destruct (decide (job_comment job ≠ renew_comment)) as [Hne|Heq]; [|done].
  rewrite filter_cons. rewrite IH.
  by destruct (decide (job_comment job ≠ renew_comment)).
Qed.

(** What [configure_periodic_renew] does to the crontab. *)
Lemma configure_effects E w :
  wp (configure_periodic_renew E)
     (λ r w', flags w' = flags w ∧ kv_requests w' = kv_requests w ∧
              match r with
              | Return _ => ∃ job, job_comment job = renew_comment ∧
                                   crontab w' = crontab w ++ [job]
              | Raise _ => crontab w' = crontab w
              end) w.
Proof.
  unfold configure_periodic_renew.
  wp_run; (split; [done|split; [done|]]); try done.
  eexists; (split; [|reflexivity]); reflexivity.
Qed.

Lemma opened_ports_frame E w :
  wp (opened_ports E)
     (λ _ w', flags w' = flags w ∧ kv_requests w' = kv_requests w ∧
              crontab w' = crontab w) w.
Proof. unfold opened_ports. by wp_run. Qed.

(** [register_server]: the stored requests stay; either the flags stay and
    the crontab is as it was or holds at most one job of the layer, or the
    batch went through, [lets-encrypt.registered] is set and the crontab
    holds exactly one job of the layer. *)
Lemma register_server_effects E w :
  wp (register_server E)
     (λ r w',
        kv_requests w' = kv_requests w ∧
        ((flags w' = flags w ∧
          (crontab w' = crontab w ∨ length (tagged (crontab w')) ≤ 1)) ∨
         (flags w' = flags w ∪ {["lets-encrypt.registered"]} ∧
          length (tagged (crontab w')) = 1 ∧
          ∃ ports w1,
            opened_ports E w = (Return ports, w1) ∧
            (create_certificates E
               (register_requests E (default [] (kv_requests w))) w1).1
            = Return true))) w.
Proof.
  unfold register_server.
  apply wp_bind. eapply wp_val; [reflexivity|]. cbv beta iota.
  destruct (_ && _) eqn:Hnone; [wp_run; unchanged|].
  apply wp_bind. apply wp_call. intros rp w1 Hports.
  pose proof (opened_ports_frame E w) as (Hf1 & Hk1 & Hc1).
  rewrite Hports in Hf1, Hk1, Hc1. cbn [fst snd] in Hf1, Hk1, Hc1.
  destruct rp as [ports|e]; [cbv beta iota|unchanged].
  wp_step; [wp_run; unchanged|].
  apply wp_bind. apply wp_call. intros rc w2 Hcc.
  pose proof (loop_frame E (register_requests E (default [] (kv_requests w)))
                None w1) as (Hf2 & Hk2 & Hc2).
  fold (create_certificates E (register_requests E (default [] (kv_requests w))))
    in Hf2, Hk2, Hc2.
  rewrite Hcc in Hf2, Hk2, Hc2. cbn [fst snd] in Hf2, Hk2, Hc2.
  rewrite Hf1 in Hf2. rewrite Hk1 in Hk2. rewrite Hc1 in Hc2.
  destruct rc as [[|]|e]; cbv beta iota; [|wp_run; unchanged..].
  apply wp_bind. eapply wp_val; [reflexivity|]. cbv beta iota.
  apply wp_bind. eapply wp_mono; [apply configure_effects|].
  intros rconf w3 (Hf3 & Hk3 & Hc3). wsimpl.
  destruct rconf as [[]|e].
  - destruct Hc3 as (job & Hjob & Hc3).
    assert (Hone : length (tagged (crontab w3)) = 1).
    { rewrite Hc3, tagged_app, tagged_removed. unfold tagged.
      rewrite filter_cons. by destruct (decide _). }
    unfold create_dhparam. apply wp_bind. apply wp_copyfile; intros Hcopy.
    + wp_run. split; [congruence|]. right.
      split; [by rewrite Hf3, Hf2|]. split; [done|].
      exists ports, w1. split; [done|]. by rewrite Hcc.
    + split; [congruence|]. left. split; [congruence|]. right. lia.
  - split; [congruence|]. left. split; [congruence|]. right.
    rewrite Hc3, tagged_removed. cbn. lia.
Qed.

Lemma check_version_effects E w :
  wp (check_version_and_install E)
     (λ r w',
        r = Return tt ∧ flags w' = flags w ∧ kv_requests w' = kv_requests w ∧
        crontab w' = crontab w ∧ running w' = running w ∧ dirs w' = dirs w ∧
        if str_ge (lsb_DISTRIB_CODENAME E) "xenial"
        then status w' = status w ∧
             trace w' = trace w ++ [EvAptInstall ["letsencrypt"];
                                    EvOpenPort 80; EvOpenPort 443]
        else status w' = Some (blocked, "Unsupported series < Xenial") ∧
             trace w' = trace w ++
               [EvLog ("letsencrypt not supported on series >= "
                       +:+ lsb_DISTRIB_CODENAME E);
                EvStatusSet blocked "Unsupported series < Xenial"]) w.
Proof.
  unfold check_version_and_install.
  destruct (str_ge (lsb_DISTRIB_CODENAME E) "xenial") eqn:Hge; cbn [negb];
    wp_run; flat_trace; by repeat split.
Qed.

Lemma config_changed_effects E w :
  wp (config_changed E)
     (λ _ w',
        kv_requests w' = kv_requests w ∧ crontab w' = crontab w ∧
        flags w' =
          if config_changed_fqdn E && truthy_opt (config_previous_fqdn E)
             || truthy_opt (config_fqdn E)
          then flags w ∖ {["lets-encrypt.registered"]}
          else flags w) w.
Proof. unfold config_changed. by wp_run. Qed.

Lemma renew_cert_frame E w :
  wp (renew_cert E)
     (λ _ w', kv_requests w' = kv_requests w ∧ crontab w' = crontab w) w.
Proof.
  unfold renew_cert, renew_window, no_renew_needed, stop_running_web_service,
    start_web_service.
  by wp_run.
Qed.

(** What any handler, dispatched, does to the stored requests, to the jobs
    of the layer in the crontab and to [lets-encrypt.registered]. *)
Lemma dispatch_effects E h w :
  let w' := (dispatch E h w).2 in
  kv_requests w' = kv_requests w ∧
  (crontab w' = crontab w ∨ length (tagged (crontab w')) ≤ 1) ∧
  (h ≠ ConfigChanged → "lets-encrypt.registered" ∈ flags w →
   "lets-encrypt.registered" ∈ flags w') ∧
  ("lets-encrypt.registered" ∉ flags w → "lets-encrypt.registered" ∈ flags w' →
   h = RegisterServer ∧
   ∃ ports w1,
     opened_ports E w = (Return ports, w1) ∧
     (create_certificates E
        (register_requests E (default [] (kv_requests w))) w1).1 = Return true).
Proof.
  intros w'. unfold w', dispatch. destruct (guard h w); [|cbn [snd]; naive_solver].
  destruct h; cbn [body].
  - destruct (check_version_effects E w) as (_ & Hf & Hk & Hc & _).
    rewrite Hf, Hk, Hc. naive_solver.
  - destruct (config_changed_effects E w) as (Hk & Hc & Hf).
    rewrite Hf, Hk, Hc. split; [done|]. split; [by left|]. split; [done|].
    intros Hno Hyes. case_match; set_solver.
  - destruct (register_server_effects E w) as (Hk & [(Hf & Hc)|(Hf & Hc & Hok)]).
    + rewrite Hf, Hk. naive_solver.
    + rewrite Hf, Hk. split; [done|]. split; [right; lia|].
      split; [set_solver|done].
  - destruct (renew_cert_frame E w) as (Hk & Hc).
    destruct (renew_cert_effects E w) as (_ & Hf & _).
    specialize (Hf "lets-encrypt.registered"). rewrite Hk, Hc.
    split; [done|]. split; [by left|]. split.
    + intros _ Hin. apply Hf; [done|]. by split.
    + intros Hno Hyes. apply Hf in Hyes; [|done]. by destruct Hyes.
Qed.

Lemma guard_flags h w w' : flags w' = flags w → guard h w' = guard h w.
Proof. intros Hf. unfold guard, is_set. by rewrite Hf. Qed.

(** C3, as the code has it. No handler removes a request from the stored
    pending requests, whatever the outcome: after any dispatch they are what
    they were. And unless the pass of [register_server] ended with
    [lets-encrypt.registered] set, the flag conditions of the handler hold
    afterwards as they did before, and it reads the same stored requests. *)
Theorem C3_requests_stay_pending (E : Env) (h : handler) (w : World) :
  let w' := (dispatch E h w).2 in
  kv_requests w' = kv_requests w ∧
  (h = RegisterServer →
   guard RegisterServer w = true →
   "lets-encrypt.registered" ∉ flags w' →
   guard RegisterServer w' = true).
Proof.
  intros w'. split; [apply (dispatch_effects E h w)|].
  intros -> Hg Hno. unfold w', dispatch in *. rewrite Hg in *. cbn [body] in *.
  destruct (register_server_effects E w) as (_ & [(Hf & _)|(Hf & _)]).
  - by rewrite (guard_flags _ _ _ Hf).
  - rewrite Hf in Hno. set_solver.
Qed.

Lemma C3_requests_stay_pending_witness :
  let E := Sample.host in
  let w := Sample.requested [Sample.bad] in
  let w' := (dispatch E RegisterServer w).2 in
  kv_requests w' = Some [Sample.bad] ∧ guard RegisterServer w' = true.
Proof.
  intros E w w'.
  destruct (C3_requests_stay_pending E RegisterServer w) as [Hkv Hguard].
  split; [exact Hkv|].
  apply Hguard; [reflexivity|reflexivity|]. compute_done.
Defined.

Lemma C3_counterexample :
  let E := Sample.host in
  let w := Sample.requested [Sample.bad] in
  let w1 := (dispatch E RegisterServer w).2 in
  let w2 := (dispatch E RegisterServer w1).2 in
  let argv := le_cmd ["bad.example.com"] (mail_args_of "ops@example.com") in
  execs (trace w1) = [["opened-ports"]; argv] ∧
  status w1 = Some (blocked, "letsencrypt registration failed: " +:+ newline
                             +:+ "Failed authorization procedure.") ∧
  kv_requests w1 = Some [Sample.bad] ∧
  execs (trace w2) = [["opened-ports"]; argv; ["opened-ports"]; argv].
Proof. vm_compute. done. Qed.

(** C4. [lets-encrypt.registered] gets set only by [register_server], and
    only after [create_certificates] has returned [True] on the batch of that
    pass. [config_changed], dispatched on [config.changed.fqdn], removes it
    whenever [fqdn] has changed from a value that was set, or has a value now.
    No other handler removes it, [renew_cert] in particular, however the
    renewal ends. *)
Theorem C4_registered_flag (E : Env) (w : World) :
  (∀ h, "lets-encrypt.registered" ∉ flags w →
        "lets-encrypt.registered" ∈ flags (dispatch E h w).2 →
        h = RegisterServer ∧
        ∃ ports w1,
          opened_ports E w = (Return ports, w1) ∧
          (create_certificates E
             (register_requests E (default [] (kv_requests w))) w1).1
          = Return true) ∧
  (is_set "config.changed.fqdn" w = true →
   (config_changed_fqdn E = true ∧ truthy_opt (config_previous_fqdn E) = true)
   ∨ truthy_opt (config_fqdn E) = true →
   "lets-encrypt.registered" ∉ flags (dispatch E ConfigChanged w).2) ∧
  (∀ h, h ≠ ConfigChanged →
        "lets-encrypt.registered" ∈ flags w →
        "lets-encrypt.registered" ∈ flags (dispatch E h w).2).
Proof.
  split; [|split].
  - intros h. apply (dispatch_effects E h w).
  - intros Hflag Hchange. unfold dispatch. cbn [guard body]. rewrite Hflag.
    destruct (config_changed_effects E w) as (_ & _ & Hf). rewrite Hf.
    assert (config_changed_fqdn E && truthy_opt (config_previous_fqdn E)
            || truthy_opt (config_fqdn E) = true) as ->.
    { destruct Hchange as [[-> ->]| ->]; [done|by rewrite orb_true_r]. }
    set_solver.
  - intros h. apply (dispatch_effects E h w).
Qed.

Lemma C4_registered_flag_witness :
  let E := Sample.env "xenial" (Some "b.example.com") (Some "a.example.com")
             true (Some "nginx") in
  let w := Sample.world ["apt.installed.letsencrypt"; "config.changed.fqdn";
                         "config.set.fqdn"; "lets-encrypt.registered"]
             None ["nginx"] ["/etc/letsencrypt/live/a.example.com"] [] in
  "lets-encrypt.registered" ∈ flags w ∧
  ("lets-encrypt.registered" ∉ flags (dispatch E ConfigChanged w).2) ∧
  "lets-encrypt.registered" ∈ flags (dispatch E RenewCert w).2.
Proof.
  intros E w. split; [compute_done|]. split.
  - apply (proj1 (proj2 (C4_registered_flag E w))); [reflexivity|].
    left. split; reflexivity.
  - apply (proj2 (proj2 (C4_registered_flag E w))); [done|compute_done].
Defined.

(** C7, as the code has it. [unconfigure_periodic_renew] removes every job
    that carries the comment of the layer and no other job.
    [configure_periodic_renew] removes nothing: when it returns it has added
    one such job to the crontab it found, and when it raises the crontab is as
    it was. The one after the other, as [register_server] calls them, leave
    at most one job of the layer, and exactly one when the second returns. No
    handler takes the number of such jobs above one. *)
Theorem C7_rearming_leaves_one_job (E : Env) (w : World) :
  (tagged (crontab (unconfigure_periodic_renew w).2) = [] ∧
   filter (λ job, job_comment job ≠ renew_comment)
     (crontab (unconfigure_periodic_renew w).2) =
   filter (λ job, job_comment job ≠ renew_comment) (crontab w)) ∧
  (let res := configure_periodic_renew E w in
   match res.1 with
   | Return _ => ∃ job, job_comment job = renew_comment ∧
                        crontab res.2 = crontab w ++ [job]
   | Raise _ => crontab res.2 = crontab w
   end) ∧
  (let res := bind unconfigure_periodic_renew
                (λ _, configure_periodic_renew E) w in
   length (tagged (crontab res.2)) ≤ 1 ∧
   (res.1 = Return tt → length (tagged (crontab res.2)) = 1)) ∧
  (∀ h, length (tagged (crontab w)) ≤ 1 →
        length (tagged (crontab (dispatch E h w).2)) ≤ 1).
Proof.
  split; [|split; [|split]].
  - cbn [unconfigure_periodic_renew snd crontab with_event with_crontab].
    split; [apply tagged_removed|apply untagged_removed].
  - apply (configure_effects E w).
  - cbv zeta. set (w0 := (unconfigure_periodic_renew w).2).
    assert (bind unconfigure_periodic_renew (λ _, configure_periodic_renew E) w
            = configure_periodic_renew E w0) as -> by reflexivity.
    assert (Hnone : tagged (crontab w0) = []) by apply tagged_removed.
    pose proof (configure_effects E w0) as (_ & _ & Hc).
    destruct (configure_periodic_renew E w0) as [[[]|e] w']; cbn [fst snd] in *.
    + destruct Hc as (job & Hjob & ->).
      rewrite tagged_app, Hnone. unfold tagged.
      rewrite filter_cons. destruct (decide _); [|done]. cbn. split; [lia|done].
    + rewrite Hc, Hnone. cbn. split; [lia|done].
  - intros h Hle. destruct (dispatch_effects E h w) as (_ & [-> | Hone] & _); done.
Qed.

Lemma C7_rearming_leaves_one_job_witness :
  let E := Sample.host in
  let w := (configure_periodic_renew E (Sample.requested [Sample.good])).2 in
  length (tagged (crontab w)) = 1 ∧
  length (tagged (crontab (dispatch E RegisterServer w).2)) ≤ 1.
Proof.
  intros E w. split; [reflexivity|].
  apply (proj2 (proj2 (proj2 (C7_rearming_leaves_one_job E w)))).
  vm_compute. lia.
Defined.

Lemma C7_counterexample :
  let E := Sample.host in
  let w := Sample.requested [] in
  let res := bind (configure_periodic_renew E)
               (λ _, configure_periodic_renew E) w in
  tagged (crontab w) = [] ∧
  res.1 = Return tt ∧
  length (tagged (crontab res.2)) = 2.
Proof. vm_compute. done. Qed.

(** How the codenames of some series compare with ['xenial'] as strings. *)
Lemma codename_order :
  str_ge "trusty" "xenial" = false ∧ str_ge "xenial" "xenial" = true ∧
  str_ge "zesty" "xenial" = true ∧ str_ge "bionic" "xenial" = false.
Proof. by vm_compute. Qed.

(** [check_version_and_install], dispatched while
    [apt.installed.letsencrypt] is not set. On a series that does not compare
    [>= 'xenial'] as a string it logs, sets the status blocked and returns:
    nothing is installed, no port is opened. On any other series it installs
    [letsencrypt] and opens the ports 80 and 443, and leaves the status
    alone. *)
Lemma install_or_block (E : Env) (w : World) :
  is_set "apt.installed.letsencrypt" w = false →
  let res := dispatch E CheckVersionAndInstall w in
  res.1 = Return tt ∧
  if str_ge (lsb_DISTRIB_CODENAME E) "xenial"
  then status res.2 = status w ∧
       trace res.2 = trace w ++ [EvAptInstall ["letsencrypt"];
                                 EvOpenPort 80; EvOpenPort 443]
  else status res.2 = Some (blocked, "Unsupported series < Xenial") ∧
       trace res.2 = trace w ++
         [EvLog ("letsencrypt not supported on series >= "
                 +:+ lsb_DISTRIB_CODENAME E);
          EvStatusSet blocked "Unsupported series < Xenial"].
Proof.
  intros Hfirst res. unfold res, dispatch. cbn [guard body]. rewrite Hfirst.
  cbn [negb].
  destruct (check_version_effects E w) as (Hr & _ & _ & _ & _ & _ & Hcase).
  split; [exact Hr|exact Hcase].
Qed.

(** C8 does not hold of the code. The series is compared with ['xenial'] as
    a string, not by release: on every Ubuntu series released after zesty
    (17.10 artful to 24.04 noble), each newer than xenial, the handler takes
    the branch of the old platform: it sets the status blocked with
    "Unsupported series < Xenial", installs nothing and opens no port. *)
Theorem C8_later_series_blocked (E : Env) (w : World) :
  is_set "apt.installed.letsencrypt" w = false →
  lsb_DISTRIB_CODENAME E ∈
    ["artful"; "bionic"; "cosmic"; "disco"; "eoan"; "focal"; "groovy";
     "hirsute"; "impish"; "jammy"; "kinetic"; "lunar"; "mantic"; "noble"] →
  let res := dispatch E CheckVersionAndInstall w in
  res.1 = Return tt ∧
  status res.2 = Some (blocked, "Unsupported series < Xenial") ∧
  trace res.2 = trace w ++
    [EvLog ("letsencrypt not supported on series >= "
            +:+ lsb_DISTRIB_CODENAME E);
     EvStatusSet blocked "Unsupported series < Xenial"].
Proof.
  intros Hfirst Hseries res.
  destruct (install_or_block E w Hfirst) as [Hres Hcase].
  fold res in Hres, Hcase. split; [exact Hres|].
  assert (Hlt : str_ge (lsb_DISTRIB_CODENAME E) "xenial" = false).
  { repeat (apply elem_of_cons in Hseries as [->|Hseries]; [by vm_compute|]).
    by apply elem_of_nil in Hseries. }
  by rewrite Hlt in Hcase.
Qed.

Lemma C8_later_series_blocked_witness :
  let E := Sample.env "bionic" None None false (Some "nginx") in
  let w := Sample.world [] None ["nginx"] [] [] in
  let res := dispatch E CheckVersionAndInstall w in
  res.1 = Return tt ∧
  status res.2 = Some (blocked, "Unsupported series < Xenial") ∧
  trace res.2 = [EvLog "letsencrypt not supported on series >= bionic";
                 EvStatusSet blocked "Unsupported series < Xenial"].
Proof.
  intros E w.
  apply (C8_later_series_blocked E w); [reflexivity|].
  compute_done.
Defined.

(** ** Further properties of the handlers *)

Lemma foldl_extend (acc names : list string) :
  foldl (λ cmd fqdn, cmd ++ ["-d"; fqdn]) acc names =
  acc ++ concat (map (λ fqdn, ["-d"; fqdn]) names).
Proof.
  revert acc. induction names as [|name names IH]; intros acc; cbn.
  - by rewrite app_nil_r.
  - rewrite IH. by rewrite <- app_assoc.
Qed.

(** X1. The command line of the issuance client: the five fixed words, then
    [-d] and the name for every name of the request, in order, then either
    [--email] and the contact address, when there is one, or
    [--register-unsafely-without-email], never both. *)
Theorem le_cmd_shape (names : list string) (contact_email : string) :
  le_cmd names (mail_args_of contact_email) =
  ["letsencrypt"; "certonly"; "--standalone"; "--agree-tos"; "--non-interactive"]
  ++ concat (map (λ fqdn, ["-d"; fqdn]) names)
  ++ (if bool_decide (contact_email = "")
      then ["--register-unsafely-without-email"]
      else ["--email"; contact_email]).
Proof.
  unfold le_cmd, mail_args_of, truthy. rewrite foldl_extend, <- app_assoc.
  by case_bool_decide.
Qed.

Lemma loop_all_skipped E requests w :
  Forall (λ r, ∃ names, req_fqdn r = Some names ∧
                        ∃ name, name ∈ names ∧
                                "/etc/letsencrypt/live/" +:+ name ∈ dirs w)
         requests →
  ∀ fqdn, create_certificates_loop E fqdn requests w = (Return true, w).
Proof.
  induction requests as [|r rest IH]; intros Hall fqdn; [done|].
  apply Forall_cons in Hall as [(names & Hnames & Hsat%any_satisfied) Hrest].
  rewrite (loop_skip _ _ _ _ _ names) by done. by apply IH.
Qed.

(** X2. A batch every request of which has one of its certificate
    directories makes [create_certificates] return [True] and changes
    nothing: no program is started, no service is stopped, the status is
    not set. *)
Theorem satisfied_batch_changes_nothing (E : Env) (requests : list request)
    (w : World) :
  Forall (λ r, ∃ names, req_fqdn r = Some names ∧
                        ∃ name, name ∈ names ∧
                                "/etc/letsencrypt/live/" +:+ name ∈ dirs w)
         requests →
  create_certificates E requests w = (Return true, w).
Proof.
  intros Hall. exact (loop_all_skipped E requests w Hall None).
Qed.

Lemma satisfied_batch_changes_nothing_witness :
  let w := Sample.world [] None ["nginx"]
             ["/etc/letsencrypt/live/a.example.com";
              "/etc/letsencrypt/live/c.example.com"] [] in
  create_certificates Sample.host [Sample.good; Sample.no_email; Sample.other] w
  = (Return true, w).
Proof.
  intros w. apply satisfied_batch_changes_nothing.
  assert (Ha : "/etc/letsencrypt/live/" +:+ "a.example.com" ∈ dirs w)
    by compute_done.
  assert (Hc : "/etc/letsencrypt/live/" +:+ "c.example.com" ∈ dirs w)
    by compute_done.
  apply Forall_cons. split.
  { exists ["a.example.com"]. split; [done|].
    exists "a.example.com". split; [set_solver|exact Ha]. }
  apply Forall_cons. split.
  { exists ["a.example.com"]. split; [done|].
    exists "a.example.com". split; [set_solver|exact Ha]. }
  apply Forall_cons. split; [|by apply Forall_nil].
  exists ["c.example.com"]. split; [done|].
  exists "c.example.com". split; [set_solver|exact Hc].
Defined.

(** Splits an explicit list of events at its first [EvExec]. *)
Ltac split_at_exec l :=
  lazymatch l with
  | EvExec ?a :: ?post => constr:((@nil event, a, post))
  | ?e :: ?r =>
      let t := split_at_exec r in
      lazymatch t with
      | (?pre, ?a, ?post) => constr:((e :: pre, a, post))
      end
  end.

Ltac exists_split_at_exec :=
  lazymatch goal with
  | |- ∃ pre argv post, _ ++ ?l = _ ∧ _ =>
      let t := split_at_exec l in
      lazymatch t with
      | (?p, ?a, ?q) => exists p, a, q
      end
  end.

Lemma stop_start_running (rs : gset string) (n : string) :
  n ∈ rs → rs ∖ {[n]} ∪ {[n]} = rs.
Proof.
  intros Hin. apply set_eq. intros x.
  rewrite elem_of_union, elem_of_difference, elem_of_singleton.
  destruct (decide (x = n)) as [->|Hne]; naive_solver.
Qed.

Lemma service_up_running E w :
  service_up E w = true → default "" (layer_service_name E) ∈ running w.
Proof.
  unfold service_up. intros [_ Hin%bool_decide_eq_true]%andb_true_iff. done.
Qed.

Ltac window_order_tac :=
  unfold window_order; wp_run; flat_trace;
  try match goal with
      | Hup : service_up _ _ = true, Hname : truthy_opt _ = false |- _ =>
          exfalso; unfold service_up in Hup; by rewrite Hname in Hup
      end;
  (split;
   [try done; apply stop_start_running; by apply service_up_running
   |exists_split_at_exec; by repeat split]).

Lemma renew_window_order E fqdn w :
  wp (renew_window E fqdn) (λ _ w', window_order E w w') w.
Proof. unfold renew_window, start_web_service. window_order_tac. Qed.

Lemma issue_window_order E fqdn names r contact_email w :
  req_contact_email r = Some contact_email →
  wp (issue_window E fqdn names r) (λ _ w', window_order E w w') w.
Proof.
  intros Hmail. unfold issue_window, start_web_service. rewrite Hmail.
  window_order_tac.
Qed.

(** X3. In the renewal window, and in the issuance window of a request that
    has ['contact-email'], the client is started once, after the web service
    has been stopped (when it was running) and before it is started again:
    the client never runs while the configured service is up, and after the
    window the set of running services is exactly what it was. In the
    issuance window of a request without ['contact-email'] the client is not
    started at all: the service is stopped if it was running, and nothing is
    started. *)
Theorem client_runs_with_service_down (E : Env) (win : window) (w : World) :
  match win with
  | IssuanceWindow _ _ {| req_contact_email := None |} =>
      window_cut_short E w (run_window E win w)
  | _ => window_order E w (run_window E win w)
  end.
Proof.
  destruct win as [fqdn|fqdn names [names' [contact_email|]]].
  - exact (renew_window_order E fqdn w).
  - by apply (issue_window_order E fqdn names _ contact_email w).
  - by apply (issue_window_cut_short E fqdn names).
Qed.

Lemma client_runs_with_service_down_witness :
  let E := Sample.host in
  let w := Sample.requested [] in
  window_order E w (run_window E (RenewalWindow None) w) ∧
  window_order E w
    (run_window E (IssuanceWindow (Some "bad.example.com")
                     ["bad.example.com"] Sample.bad) w) ∧
  window_cut_short E w
    (run_window E (IssuanceWindow (Some "a.example.com")
                     ["a.example.com"] Sample.no_email) w).
Proof.
  intros E w. split; [|split].
  - exact (client_runs_with_service_down E (RenewalWindow None) w).
  - exact (client_runs_with_service_down E
             (IssuanceWindow (Some "bad.example.com") ["bad.example.com"]
                Sample.bad) w).
  - exact (client_runs_with_service_down E
             (IssuanceWindow (Some "a.example.com") ["a.example.com"]
                Sample.no_email) w).
Defined.

(** X4. A request with names, none of whose directories exists, on which the
    client exits with 0: the turn goes on to the next request, the status
    is active and names the last name of the request only, the directories
    are those the client left, and flags, stored requests, crontab and
    running services are as before. *)
Theorem issued_request_reports_last_name (E : Env) (fqdn : option string)
    (r : request) (w : World) (names : list string) (name contact_email out : string)
    (d : gset string) :
  req_fqdn r = Some names →
  last names = Some name →
  satisfied w names = false →
  req_contact_email r = Some contact_email →
  exec E (le_cmd names (mail_args_of contact_email)) true
    (stop_running_web_service E w).2 = (Exited 0 out, d) →
  let res := create_certificates_body E fqdn r w in
  res.1 = Return (Next (Some name)) ∧
  status res.2 = Some (active, "registered " +:+ name) ∧
  dirs res.2 = d ∧
  flags res.2 = flags w ∧ kv_requests res.2 = kv_requests w ∧
  crontab res.2 = crontab w ∧ running res.2 = running w.
Proof.
  intros Hnames Hlast Hsat Hmail Hexit res. unfold res.
  assert (Hafter : after_for fqdn names = Some name)
    by (unfold after_for; by rewrite Hlast).
  apply (wp_eq _ _ (λ r' w', r' = Return (Next (Some name)) ∧
                             status w' = Some (active, "registered " +:+ name) ∧
                             dirs w' = d ∧ flags w' = flags w ∧
                             kv_requests w' = kv_requests w ∧
                             crontab w' = crontab w ∧ running w' = running w)
           w (body_attempt _ _ _ _ names Hnames Hsat)).
  rewrite stop_cases in Hexit. cbn [snd] in Hexit.
  unfold issue_window, start_web_service. rewrite Hmail, Hafter.
  wp_run; rewrite Hexec in Hexit; simplify_eq/=;
    try match goal with
        | Hup : service_up _ _ = true, Hname : truthy_opt _ = false |- _ =>
            exfalso; unfold service_up in Hup; by rewrite Hname in Hup
        end;
    repeat split; try done;
    apply stop_start_running; by apply service_up_running.
Qed.

Lemma exec_exited E argv merged w rc out :
  (exec E argv merged w).1 = Exited rc out →
  exec E argv merged w = (Exited rc out, (exec E argv merged w).2).
Proof. destruct (exec E argv merged w) as [p d]. cbn. by intros ->. Qed.

Lemma issued_request_reports_last_name_witness :
  let E := Sample.host in
  let w := Sample.requested [] in
  let r := {| req_fqdn := Some ["a.example.com"; "www.a.example.com"];
              req_contact_email := Some "ops@example.com" |} in
  status (create_certificates_body E None r w).2
  = Some (active, "registered www.a.example.com").
Proof.
  intros E w r.
  refine (proj1 (proj2 (issued_request_reports_last_name E None r w
            ["a.example.com"; "www.a.example.com"] "www.a.example.com"
            "ops@example.com" "Congratulations!" _
            eq_refl eq_refl eq_refl eq_refl (exec_exited _ _ _ _ _ _ _)))).
  vm_compute. reflexivity.
Defined.



(** Turns a goal about the result and the world of [m w] into a [wp]. *)
Ltac to_wp m w :=
  pattern ((m w).1), ((m w).2);
  lazymatch goal with
  | |- ?Q _ _ => change (wp m Q w)
  end.

(** X6. When the output of the probe contains [No renewals were attempted.],
    whatever its exit code, [renew_cert] returns at once: besides clearing
    the flag and running the probe it does nothing. No service is stopped or
    started, no port is opened, and status, running services and crontab are
    as before. *)
Theorem renew_nothing_due (E : Env) (w : World) (rc : Z) (out : string)
    (d : gset string) :
  exec E renew_argv false (remove_state "lets-encrypt.renew.requested" w).2
    = (Exited rc out, d) →
  str_contains "No renewals were attempted." out = true →
  let res := renew_cert E w in
  res.1 = Return tt ∧
  trace res.2 = trace w ++ [EvRemoveState "lets-encrypt.renew.requested";
                            EvExec renew_argv] ∧
  status res.2 = status w ∧ running res.2 = running w ∧
  crontab res.2 = crontab w ∧ dirs res.2 = d ∧
  flags res.2 = flags w ∖ {["lets-encrypt.renew.requested"]}.
Proof.
  intros Hexit Hmarker res. unfold res. to_wp (renew_cert E) w.
  unfold renew_cert, no_renew_needed. fold renew_argv.
  cbn [remove_state snd] in Hexit.
  wp_run; rewrite Hexec in Hexit; simplify_eq/=; flat_trace; try done;
    congruence.
Qed.

Lemma renew_nothing_due_witness :
  let w := Sample.world ["lets-encrypt.renew.requested"] None ["nginx"] [] [] in
  trace (renew_cert Cases.quiet w).2
  = [EvRemoveState "lets-encrypt.renew.requested"; EvExec renew_argv].
Proof.
  intros w.
  exact (proj1 (proj2 (renew_nothing_due Cases.quiet w 0
                         "No renewals were attempted." _ eq_refl eq_refl))).
Defined.

(** X7. How the renewal window ends, by what the client does when it is
    started after the service was stopped and the ports 80 and 443 opened.
    Exit 0: the window returns, the status is active and names the configured
    [fqdn] ([None] when there is none), and [lets-encrypt.renewed] is set.
    Another exit code: the window returns too, the status is blocked with the
    output of the client, and the flags are as before. A client that cannot
    be started: the window raises, status and flags as before. *)
Theorem renewal_outcomes (E : Env) (fqdn : option string) (w : World) :
  let w0 := with_event (EvOpenPort 443)
              (with_event (EvOpenPort 80) (stop_running_web_service E w).2) in
  let res := renew_window E fqdn w in
  dirs res.2 = (exec E renew_argv true w0).2 ∧
  match (exec E renew_argv true w0).1 with
  | Exited rc out =>
      if bool_decide (rc = 0%Z)
      then res.1 = Return tt ∧
           status res.2 = Some (active, "registered " +:+ str_of fqdn) ∧
           flags res.2 = flags w ∪ {["lets-encrypt.renewed"]}
      else res.1 = Return tt ∧
           status res.2 = Some (blocked, "letsencrypt renewal failed: "
                                         +:+ newline +:+ out) ∧
           flags res.2 = flags w
  | NotStarted =>
      res.1 = Raise OSError ∧ status res.2 = status w ∧ flags res.2 = flags w
  end.
Proof.
  intros w0 res. unfold res, w0. rewrite stop_cases. cbn [snd].
  to_wp (renew_window E fqdn) w.
  unfold renew_window, start_web_service. fold renew_argv.
  wp_run; rewrite Hexec; cbn [fst snd];
    try (rewrite bool_decide_true by done);
    try (rewrite bool_decide_false by done); done.
Qed.

(** X8. When the client cannot be started for the probe, [renew_cert] raises:
    the failure is not caught. The flag has been cleared by then, and nothing
    else has happened. *)
Theorem probe_cannot_start (E : Env) (w : World) (d : gset string) :
  exec E renew_argv false (remove_state "lets-encrypt.renew.requested" w).2
    = (NotStarted, d) →
  let res := renew_cert E w in
  res.1 = Raise OSError ∧
  trace res.2 = trace w ++ [EvRemoveState "lets-encrypt.renew.requested";
                            EvExec renew_argv] ∧
  status res.2 = status w ∧ running res.2 = running w ∧
  flags res.2 = flags w ∖ {["lets-encrypt.renew.requested"]}.
Proof.
  intros Hexit res. unfold res. to_wp (renew_cert E) w.
  unfold renew_cert, no_renew_needed. fold renew_argv.
  cbn [remove_state snd] in Hexit.
  wp_run; rewrite Hexec in Hexit; simplify_eq/=; flat_trace; done.
Qed.

Lemma probe_cannot_start_witness :
  let w := Sample.world ["lets-encrypt.renew.requested"] None ["nginx"] [] [] in
  (renew_cert Cases.bare w).1 = Raise OSError ∧
  running (renew_cert Cases.bare w).2 = running w.
Proof.
  intros w.
  destruct (probe_cannot_start Cases.bare w _ eq_refl) as (Hr & _ & _ & Hrun & _).
  by split.
Defined.

(** White space at the ends of a command. *)
Lemma append_assoc (s1 s2 s3 : string) :
  (s1 +:+ s2) +:+ s3 = s1 +:+ (s2 +:+ s3).
Proof.
  induction s1 as [|a s1 IH]; [reflexivity|].
  change (String a ((s1 +:+ s2) +:+ s3) = String a (s1 +:+ (s2 +:+ s3))).
  by rewrite IH.
Qed.

(** The bytes that [space_width] counts after the first are not ASCII. *)
Lemma space_width_cases (s : string) :
  match space_width s with
  | 0 => True
  | 1 => ∃ a rest, s = String a rest
  | 2 => ∃ a a1 rest, s = String a (String a1 rest) ∧
                      (128 ≤ Ascii.N_of_ascii a1)%N
  | _ => ∃ a a1 a2 rest, s = String a (String a1 (String a2 rest)) ∧
                         (128 ≤ Ascii.N_of_ascii a1)%N ∧
                         (128 ≤ Ascii.N_of_ascii a2)%N ∧
                         space_width s = 3
  end.
Proof.
  destruct s as [|a rest]; [done|].
  unfold space_width at 1. cbv zeta.
  lazymatch goal with
  | |- context [if ?b then 1 else _] => destruct b eqn:H1
  end; [by eauto|].
  destruct rest as [|a1 rest1]; [done|].
  lazymatch goal with
  | |- context [if ?b then 2 else _] => destruct b eqn:H2
  end.
  { do 3 eexists. split; [done|].
    rewrite ?andb_true_iff, ?orb_true_iff, ?N.eqb_eq in H2. lia. }
  destruct rest1 as [|a2 rest2]; [done|].
  lazymatch goal with
  | |- context [if ?b then 3 else _] => destruct b eqn:H3
  end; [|done].
  do 4 eexists. split; [done|].
  pose proof H3 as H3'.
  repeat (rewrite andb_true_iff in H3' || rewrite orb_true_iff in H3'
          || rewrite N.eqb_eq in H3' || rewrite N.leb_le in H3').
  split; [lia|]. split; [lia|].
  unfold space_width. cbv zeta. by rewrite H1, H2, H3.
Qed.

(** An ASCII character that is not white space ends every run of white
    space, wherever the run begins. *)
Lemma space_width_ascii (a : Ascii.ascii) (t : string) :
  (Ascii.N_of_ascii a < 128)%N → space_width (String a "") = 0 →
  space_width (String a t) = 0.
Proof.
  intros Ha. unfold space_width. cbv zeta.
  lazymatch goal with
  | |- context [if ?b then 1 else _] => destruct b
  end; [done|]. intros _.
  assert (∀ n, (128 ≤ n)%N → (Ascii.N_of_ascii a =? n)%N = false) as Hne.
  { intros n Hn. apply N.eqb_neq. lia. }
  destruct t as [|a1 [|a2 t]]; [done| |];
    rewrite !Hne by lia; reflexivity.
Qed.

Lemma isspace_from_visible (n : nat) (a : Ascii.ascii) (t : string) :
  (Ascii.N_of_ascii a < 128)%N → space_width (String a "") = 0 →
  ∀ s, String.length s ≤ n → isspace_from 0 (s +:+ String a t) = false.
Proof.
  intros Ha Hplain.
  induction n as [|n IH]; intros s Hlen.
  - destruct s; [|cbn in Hlen; lia].
    change (isspace_from 0 (String a t) = false).
    cbn [isspace_from]. by rewrite space_width_ascii.
  - destruct s as [|b s]; [apply (IH ""); cbn; lia|].
    cbn [String.length] in Hlen.
    change (isspace_from 0 (String b (s +:+ String a t)) = false).
    cbn [isspace_from].
    pose proof (space_width_cases (String b (s +:+ String a t))) as Hw.
    destruct (space_width (String b (s +:+ String a t))) as [|[|[|k]]].
    + done.
    + apply IH. lia.
    + destruct Hw as (c & c1 & rest & Heq & Hc1).
      destruct s as [|b1 s].
      { injection Heq as _ <- _. lia. }
      cbn [String.length] in Hlen.
      change (isspace_from 1 (String b1 (s +:+ String a t)) = false).
      cbn [isspace_from]. apply IH. lia.
    + destruct Hw as (c & c1 & c2 & rest & Heq & Hc1 & Hc2 & Hk).
      injection Hk as ->.
      destruct s as [|b1 s].
      { injection Heq as _ <- _. lia. }
      destruct s as [|b2 s].
      { injection Heq as _ _ <- _. lia. }
      cbn [String.length] in Hlen.
      change (isspace_from 2 (String b1 (String b2 (s +:+ String a t))) = false).
      cbn [isspace_from]. apply IH. lia.
Qed.

(** [rstrip] cuts nothing before such a character. *)
Lemma rstrip_visible (s : string) (a : Ascii.ascii) (t : string) :
  (Ascii.N_of_ascii a < 128)%N → space_width (String a "") = 0 →
  rstrip (s +:+ String a t) = s +:+ rstrip (String a t).
Proof.
  intros Ha Hplain.
  induction s as [|b s IH]; [reflexivity|].
  change (rstrip (String b (s +:+ String a t))
          = String b (s +:+ rstrip (String a t))).
  cbn [rstrip].
  change (String b (s +:+ String a t)) with (String b s +:+ String a t).
  rewrite (isspace_from_visible (String.length (String b s))) by done.
  by rewrite IH.
Qed.

(** The command of the job as [cron.new] keeps it: the blank at its end is
    gone, and nothing else is. *)
Lemma strip_command (charm_dir charms_reactive : string) :
  strip ("export CHARM_DIR=" +:+ dquote +:+ charm_dir +:+ dquote +:+ "; "
         +:+ charms_reactive +:+ " set_flag lets-encrypt.renew.requested ")
  = "export CHARM_DIR=" +:+ dquote +:+ charm_dir +:+ dquote +:+ "; "
    +:+ charms_reactive +:+ " set_flag lets-encrypt.renew.requested".
Proof.
  unfold strip.
  change (lstrip ("export CHARM_DIR=" +:+ ?r)) with ("export CHARM_DIR=" +:+ r).
  change (" set_flag lets-encrypt.renew.requested ")
    with (" " +:+ "set_flag lets-encrypt.renew.requested ").
  rewrite <- !append_assoc.
  rewrite rstrip_visible by (by vm_compute).
  by rewrite !append_assoc.
Qed.

(** [split] and [strip] on white space that is not a blank, a tab or a line
    end: the file separator U+001C parts two words, the unit separator
    U+001F and the no-break space U+00A0 (two bytes) are stripped. *)
Lemma split_strip_samples :
  split ("80/tcp" +:+ newline +:+ "443/tcp" +:+ newline)
  = ["80/tcp"; "443/tcp"] ∧
  split ("8080/tcp" +:+ String (Ascii.ascii_of_nat 28) "80/tcp" +:+ newline)
  = ["8080/tcp"; "80/tcp"] ∧
  strip (String (Ascii.ascii_of_nat 31) "/usr/bin/x  " +:+ newline)
  = "/usr/bin/x" ∧
  strip (String (Ascii.ascii_of_nat 194) (String (Ascii.ascii_of_nat 160) "a b")
         +:+ String (Ascii.ascii_of_nat 9) "")
  = "a b".
Proof. by vm_compute. Qed.

(** X9. The job that [configure_periodic_renew] installs, when
    [which charms.reactive] exits with 0 and [CHARM_DIR] is in the
    environment: it is added after the jobs already there, carries the
    comment of the layer, is enabled, runs at a minute between 1 and 59 of
    the hours 6 and 18, and its command exports [CHARM_DIR] and sets the flag
    [lets-encrypt.renew.requested] through the program that [which] printed,
    white space stripped. The command is stored without the blank that ends
    it in the source. *)
Theorem configured_job (E : Env) (w : World) (which charm_dir : string)
    (d : gset string) :
  exec E ["which"; "charms.reactive"] true w = (Exited 0 which, d) →
  environ_CHARM_DIR E = Some charm_dir →
  ∃ minute : Z,
    (1 ≤ minute ≤ 59)%Z ∧
    (configure_periodic_renew E w).1 = Return tt ∧
    dirs (configure_periodic_renew E w).2 = d ∧
    crontab (configure_periodic_renew E w).2 =
      crontab w ++
      [{| job_command :=
            "export CHARM_DIR=" +:+ dquote +:+ charm_dir +:+ dquote +:+ "; "
            +:+ strip which +:+ " set_flag lets-encrypt.renew.requested";
          job_comment := "Renew Let's Encrypt [managed by Juju]";
          job_schedule := pretty minute +:+ " 6,18 * * *";
          job_enabled := true |}].
Proof.
  intros Hwhich Henv.
  exists (1 + random_draw E (with_event (EvExec ["which"; "charms.reactive"])
                               (with_dirs d w)) `mod` (59 - 1 + 1))%Z.
  split.
  { pose proof (Z.mod_pos_bound
                  (random_draw E (with_event (EvExec ["which"; "charms.reactive"])
                                    (with_dirs d w))) (59 - 1 + 1)) as Hb.
    lia. }
  unfold configure_periodic_renew, bind, check_output, getitem, randint, ret.
  rewrite Hwhich, Henv. rewrite bool_decide_true by done.
  rewrite strip_command. done.
Qed.

Lemma configured_job_witness :
  let w := Sample.requested [] in
  ∃ minute : Z,
    (1 ≤ minute ≤ 59)%Z ∧
    map job_schedule (crontab (configure_periodic_renew Cases.sound w).2)
    = [pretty minute +:+ " 6,18 * * *"] ∧
    map job_command (crontab (configure_periodic_renew Cases.sound w).2)
    = ["export CHARM_DIR=" +:+ dquote +:+ "/charm" +:+ dquote
       +:+ "; /usr/bin/charms.reactive set_flag lets-encrypt.renew.requested"].
Proof.
  intros w.
  destruct (configured_job Cases.sound w
              ("/usr/bin/charms.reactive" +:+ newline) "/charm" (dirs w)
              eq_refl eq_refl) as (minute & Hb & _ & _ & Hc).
  exists minute. split; [exact Hb|]. rewrite Hc. split; [done|].
  by vm_compute.
Defined.

(** X10. When [configure_periodic_renew] fails it has written nothing: if
    [which charms.reactive] exits with a code other than 0 it raises
    [CalledProcessError], and if [CHARM_DIR] is not in the environment it
    raises [KeyError]; in both cases the crontab is as it was and only
    [which] has been run. *)
Theorem configure_fails_before_writing (E : Env) (w : World) :
  (∀ rc out d,
     exec E ["which"; "charms.reactive"] true w = (Exited rc out, d) →
     rc ≠ 0%Z →
     configure_periodic_renew E w =
     (Raise (CalledProcessError rc out),
      with_event (EvExec ["which"; "charms.reactive"]) (with_dirs d w))) ∧
  (∀ out d,
     exec E ["which"; "charms.reactive"] true w = (Exited 0 out, d) →
     environ_CHARM_DIR E = None →
     configure_periodic_renew E w =
     (Raise (KeyError "CHARM_DIR"),
      with_event (EvExec ["which"; "charms.reactive"]) (with_dirs d w))).
Proof.
  split.
  - intros rc out d Hwhich Hrc.
    unfold configure_periodic_renew, bind, check_output.
    rewrite Hwhich. by rewrite bool_decide_false by done.
  - intros out d Hwhich Henv.
    unfold configure_periodic_renew, bind, check_output, getitem, raise.
    rewrite Hwhich, Henv. by rewrite bool_decide_true by done.
Qed.

Lemma configure_fails_before_writing_witness :
  let w := Sample.requested [] in
  (configure_periodic_renew Cases.no_charm_dir w).1 = Raise (KeyError "CHARM_DIR") ∧
  crontab (configure_periodic_renew Cases.no_charm_dir w).2 = crontab w.
Proof.
  intros w.
  rewrite (proj2 (configure_fails_before_writing Cases.no_charm_dir w)
             ("/usr/bin/charms.reactive" +:+ newline) (dirs w) eq_refl eq_refl).
  by split.
Defined.

(** X11. [register_server] with something to register, when [opened-ports]
    exits with 0 and prints neither [80/tcp] nor [443/tcp] as one of its
    words: the status is set to waiting and nothing else happens. The client
    is not started, no service is stopped, flags and crontab are as before.
    When [opened-ports] exits with another code the handler raises
    [CalledProcessError] and sets no status. *)
Theorem register_waits_for_ports (E : Env) (w : World) :
  bool_decide (default [] (kv_requests w) = [])
    && negb (truthy_opt (config_fqdn E)) = false →
  let res := register_server E w in
  (∀ out d,
     exec E ["opened-ports"] false w = (Exited 0 out, d) →
     "80/tcp" ∉ split out → "443/tcp" ∉ split out →
     res.1 = Return tt ∧
     status res.2 = Some (waiting,
                          "Waiting for ports to open (will happen in next hook)") ∧
     trace res.2 = trace w ++
       [EvExec ["opened-ports"];
        EvStatusSet waiting
          "Waiting for ports to open (will happen in next hook)"] ∧
     flags res.2 = flags w ∧ running res.2 = running w ∧
     crontab res.2 = crontab w) ∧
  (∀ rc out d,
     exec E ["opened-ports"] false w = (Exited rc out, d) → rc ≠ 0%Z →
     res.1 = Raise (CalledProcessError rc out) ∧
     status res.2 = status w ∧
     trace res.2 = trace w ++ [EvExec ["opened-ports"]]).
Proof.
  intros Hsome res. split.
  - intros out d Hports H80 H443. unfold res. to_wp (register_server E) w.
    unfold register_server, opened_ports.
    apply wp_bind. eapply wp_val; [reflexivity|]. cbv beta iota.
    rewrite Hsome.
    apply wp_bind. apply wp_bind. wp_step; rewrite Hexec in Hports;
      simplify_eq/=.
    eapply wp_val; [reflexivity|]. cbv beta iota.
    rewrite (bool_decide_false ("80/tcp" ∈ split out)) by done.
    rewrite (bool_decide_false ("443/tcp" ∈ split out)) by done.
    cbn [orb negb]. wp_run. flat_trace. done.
  - intros rc out d Hports Hrc. unfold res. to_wp (register_server E) w.
    unfold register_server, opened_ports.
    apply wp_bind. eapply wp_val; [reflexivity|]. cbv beta iota.
    rewrite Hsome.
    apply wp_bind. apply wp_bind. wp_step; rewrite Hexec in Hports;
      by simplify_eq/=.
Qed.

Lemma register_waits_for_ports_witness :
  let w := Sample.requested [Sample.good] in
  status (register_server Cases.closed w).2
  = Some (waiting, "Waiting for ports to open (will happen in next hook)") ∧
  execs (trace (register_server Cases.closed w).2) = [["opened-ports"]].
Proof.
  intros w.
  destruct (proj1 (register_waits_for_ports Cases.closed w eq_refl)
              ("8080/tcp" +:+ newline) (dirs w) eq_refl)
    as (_ & Hstatus & Htrace & _).
  - compute_done.
  - compute_done.
  - split; [exact Hstatus|]. by rewrite Htrace.
Defined.

(** [register_server] from the point where the batch has gone through. *)
Lemma register_server_issued E w ports w1 w2 :
  bool_decide (default [] (kv_requests w) = [])
    && negb (truthy_opt (config_fqdn E)) = false →
  opened_ports E w = (Return ports, w1) →
  "80/tcp" ∈ ports ∨ "443/tcp" ∈ ports →
  create_certificates E (register_requests E (default [] (kv_requests w))) w1
    = (Return true, w2) →
  register_server E w =
  bind (configure_periodic_renew E)
    (λ _, bind (create_dhparam E) (λ _, set_state "lets-encrypt.registered"))
    (unconfigure_periodic_renew w2).2.
Proof.
  intros Hsome Hports Hopen Hcc.
  unfold register_server, bind at 1, kv_get_requests. rewrite Hsome.
  unfold bind at 1. rewrite Hports.
  assert (negb (bool_decide ("80/tcp" ∈ ports) || bool_decide ("443/tcp" ∈ ports))
          = false) as ->.
  { apply negb_false_iff, orb_true_iff.
    destruct Hopen; [left|right]; by apply bool_decide_eq_true. }
  unfold bind at 1. rewrite Hcc. by unfold bind at 1.
Qed.

(** X12. [register_server] once the batch has gone through
    ([create_certificates] returned [True]): the jobs of the layer are
    removed from the crontab, then the job is installed, then
    [dhparam.pem] is copied from the charm to [/etc/letsencrypt], and only
    then is [lets-encrypt.registered] set. If installing the job raises, the
    handler raises the same with no job of the layer left and the flags as
    before; if the copy fails, it raises with the new job installed and the
    flags as before. *)
Theorem register_after_issuance (E : Env) (w : World) (ports : list string)
    (w1 w2 : World) :
  bool_decide (default [] (kv_requests w) = [])
    && negb (truthy_opt (config_fqdn E)) = false →
  opened_ports E w = (Return ports, w1) →
  "80/tcp" ∈ ports ∨ "443/tcp" ∈ ports →
  create_certificates E (register_requests E (default [] (kv_requests w))) w1
    = (Return true, w2) →
  let res := register_server E w in
  let w3 := (unconfigure_periodic_renew w2).2 in
  let src := hookenv_charm_dir E +:+ "/files/dhparam.pem" in
  let dst := "/etc/letsencrypt/dhparam.pem" in
  (∀ e w4, configure_periodic_renew E w3 = (Raise e, w4) →
           res = (Raise e, w4) ∧ tagged (crontab w4) = [] ∧
           flags w4 = flags w) ∧
  (∀ w4, configure_periodic_renew E w3 = (Return tt, w4) →
         length (tagged (crontab w4)) = 1 ∧
         (copyfile_ok E src dst w4 = false →
          res = (Raise OSError, w4) ∧ flags w4 = flags w) ∧
         (copyfile_ok E src dst w4 = true →
          res.1 = Return tt ∧
          flags res.2 = flags w ∪ {["lets-encrypt.registered"]} ∧
          crontab res.2 = crontab w4 ∧
          trace res.2 = trace w4 ++ [EvCopyFile src dst;
                                     EvSetState "lets-encrypt.registered"])).
Proof.
  intros Hsome Hports Hopen Hcc res w3 src dst.
  pose proof (opened_ports_frame E w) as (Hf1 & _).
  rewrite Hports in Hf1. cbn [fst snd] in Hf1.
  pose proof (loop_frame E (register_requests E (default [] (kv_requests w)))
                None w1) as (Hf2 & _).
  fold (create_certificates E (register_requests E (default [] (kv_requests w))))
    in Hf2.
  rewrite Hcc in Hf2. cbn [fst snd] in Hf2.
  assert (Hnone : tagged (crontab w3) = []) by apply tagged_removed.
  assert (Hf3 : flags w3 = flags w) by (cbn; congruence).
  assert (Hres : res = bind (configure_periodic_renew E)
                         (λ _, bind (create_dhparam E)
                                 (λ _, set_state "lets-encrypt.registered")) w3)
    by exact (register_server_issued E w ports w1 w2 Hsome Hports Hopen Hcc).
  pose proof (configure_effects E w3) as (Hf4 & _ & Hc4).
  split.
  - intros e w4 Hconf. rewrite Hconf in Hf4, Hc4. cbn [fst snd] in Hf4, Hc4.
    rewrite Hres. unfold bind at 1. rewrite Hconf.
    split; [done|]. split; [by rewrite Hc4|congruence].
  - intros w4 Hconf. rewrite Hconf in Hf4, Hc4. cbn [fst snd] in Hf4, Hc4.
    destruct Hc4 as (job & Hjob & Hc4).
    split.
    { rewrite Hc4, tagged_app, Hnone. unfold tagged.
      rewrite filter_cons. by destruct (decide _). }
    assert (Hres' : res = bind (create_dhparam E)
                            (λ _, set_state "lets-encrypt.registered") w4).
    { rewrite Hres. unfold bind at 1. by rewrite Hconf. }
    split; intros Hcopy.
    + assert (res = (Raise OSError, w4)) as ->.
      { rewrite Hres'. unfold bind, create_dhparam, copyfile.
        fold src dst. by rewrite Hcopy. }
      split; [done|congruence].
    + assert (res = (Return tt,
                     with_event (EvSetState "lets-encrypt.registered")
                       (with_flags (λ fs, fs ∪ {["lets-encrypt.registered"]})
                          (with_event (EvCopyFile src dst) w4)))) as ->.
      { rewrite Hres'. unfold bind, create_dhparam, copyfile.
        fold src dst. by rewrite Hcopy. }
      cbn. rewrite Hf4, Hf3. by rewrite <- app_assoc.
Qed.

Lemma result_eta {A} (m : M A) (w : World) (r : result A) :
  (m w).1 = r → m w = (r, (m w).2).
Proof. destruct (m w) as [r' w']. cbn. by intros ->. Qed.

Lemma register_after_issuance_witness :
  let old := {| job_command := "/bin/true"; job_comment := renew_comment;
                job_schedule := "7 6,18 * * *"; job_enabled := true |} in
  let w := Sample.world ["apt.installed.letsencrypt";
                         "lets-encrypt.certificate-requested"]
             (Some [Sample.good]) ["nginx"] [] [old] in
  let res := register_server Cases.no_charm_dir w in
  res.1 = Raise (KeyError "CHARM_DIR") ∧ tagged (crontab res.2) = [] ∧
  flags res.2 = flags w.
Proof.
  intros old w res.
  set (E := Cases.no_charm_dir).
  set (w1 := (opened_ports E w).2).
  set (w2 := (create_certificates E [Sample.good] w1).2).
  set (w3 := (unconfigure_periodic_renew w2).2).
  assert (H80 : "80/tcp" ∈ ["80/tcp"; "443/tcp"]) by constructor.
  assert (Hports : (opened_ports E w).1 = Return ["80/tcp"; "443/tcp"])
    by (vm_compute; reflexivity).
  assert (Hcc : (create_certificates E [Sample.good] w1).1 = Return true)
    by (vm_compute; reflexivity).
  assert (Hconf : (configure_periodic_renew E w3).1 = Raise (KeyError "CHARM_DIR"))
    by (vm_compute; reflexivity).
  destruct (proj1 (register_after_issuance E w ["80/tcp"; "443/tcp"] w1 w2
                     eq_refl (result_eta _ _ _ Hports) (or_introl H80)
                     (result_eta _ _ _ Hcc))
              (KeyError "CHARM_DIR") (configure_periodic_renew E w3).2
              (result_eta _ _ _ Hconf))
    as (Hres & Htag & Hflags).
  unfold res. fold E. rewrite Hres. cbn [fst snd].
  split; [reflexivity|split; [exact Htag|exact Hflags]].
Defined.

Lemma body_status E fqdn r w :
  wp (create_certificates_body E fqdn r)
     (λ res w',
        match res with
        | Return (Next _) =>
            status w' = status w ∨
            ∃ name, status w' = Some (active, "registered " +:+ name)
        | Return (Ret b) =>
            b = false ∧
            ∃ out, status w' = Some (blocked, "letsencrypt registration failed: "
                                              +:+ newline +:+ out)
        | Raise (CalledProcessError _ _) => False
        | Raise _ => True
        end) w.
Proof.
  unfold create_certificates_body, issue_window, start_web_service.
  wp_run; try done;
    try match goal with
        | H : service_up _ _ = _ |- _ => rewrite H in *
        end;
    try destruct (service_up E w); wsimpl; eauto.
Qed.

(** X13. How [create_certificates] can end. When it returns [False] the
    status is blocked and carries the output of the client. When it returns
    [True] the status is the one from before or an active one set on the way.
    It never raises [CalledProcessError]: the failure of the client is always
    turned into [False]. *)
Theorem create_certificates_endings (E : Env) (requests : list request)
    (w : World) :
  let res := create_certificates E requests w in
  match res.1 with
  | Return false =>
      ∃ out, status res.2 = Some (blocked, "letsencrypt registration failed: "
                                           +:+ newline +:+ out)
  | Return true =>
      status res.2 = status w ∨
      ∃ name, status res.2 = Some (active, "registered " +:+ name)
  | Raise (CalledProcessError _ _) => False
  | Raise _ => True
  end.
Proof.
  intros res. unfold res, create_certificates. clear res.
  generalize (@None string).
  intros fqdn. to_wp (create_certificates_loop E fqdn requests) w.
  revert fqdn w. induction requests as [|r rest IH]; intros fqdn w.
  - unfold wp. cbn. by left.
  - cbn [create_certificates_loop]. apply wp_bind.
    eapply wp_mono; [apply body_status|].
    intros [[fqdn'|b]|e] w1 Hbody; cbn beta iota.
    + eapply wp_mono; [apply IH|]. intros [[|]|e] w2 Hrest; cbn beta iota in *;
        [|done..].
      destruct Hbody as [Hsame|Hactive], Hrest as [Hsame'|Hactive'];
        [left; congruence|by right|right|by right].
      destruct Hactive as [name Hname]. exists name. congruence.
    + unfold wp, ret. cbn. by destruct Hbody as [-> Hblocked].
    + done.
Qed.

(** X14. How [renew_cert] can end: it returns, or it raises because the
    client could not be started, and then it has set no status. A client
    that exits with a code other than 0, at the probe or in the window, never
    makes it raise. *)
Theorem renew_cert_endings (E : Env) (w : World) :
  let res := renew_cert E w in
  match res.1 with
  | Return _ => True
  | Raise e => e = OSError ∧ status res.2 = status w
  end.
Proof.
  intros res. unfold res. to_wp (renew_cert E) w.
  unfold renew_cert, renew_window, no_renew_needed, start_web_service.
  wp_run; try done;
    try match goal with
        | H : service_up _ _ = _ |- _ => rewrite H in *
        end;
    try destruct (service_up E w); wsimpl; done.
Qed.




